(** * react-datepicker: the calendar state machine and validity engine

    A shallow embedding of [src/DatepickerContext.ts] (the hook
    [useDatepickerCtx] together with [daysInMonth] and [isLeapYear]).

    Modelling conventions.
    - A JavaScript [number] that holds a year, a month index or a day of
      the month is an integer of [Z]; the callers only ever pass integers.
    - A JavaScript [Date] is its time value: milliseconds of local time
      since 1970-01-01 00:00 local.  The local time zone is taken to have a
      constant offset, so that the local-time arithmetic of ECMA-262
      ([MakeDay], [MakeDate], [YearFromTime], ...) is arithmetic on that
      value.  Invalid dates (NaN) and the limit on time values (8.64e15 ms
      on either side of the epoch) are left out: every date of the
      configuration is well formed.
    - The model is therefore the code on its ordinary inputs: numbers that
      are safe integers ([safeInteger], where the arithmetic of JavaScript
      numbers is exact) and dates within the range of time values
      ([inTimeRange]; [dateYear] are the years wholly within it).  Beyond
      them the code meets rounding and Invalid Date, which the model does
      not have; a theorem about a year the code computes with, or builds a
      date from, states that bound as a hypothesis.
    - [new Date()] (the wall clock) is an explicit argument [now].
    - [useState] cells are the fields of a record; an event handler is a
      function on that record; [useEffect] is run after the handler when
      its dependency [isVisible] has changed. *)

From Stdlib Require Import ZArith Bool List Lia.
From Stdlib Require String Ascii DecimalString DecimalZ.
Import ListNotations String.StringSyntax.
Delimit Scope string_scope with string.
Open Scope Z_scope.

(* ================================================================== *)
(** ** CalendarMath: [isLeapYear] and [daysInMonth]                    *)
(* ================================================================== *)

(** JavaScript's [%] truncates towards zero: it is [Z.rem]. *)
Definition isLeapYear (year : Z) : bool :=
  ((Z.rem year 4 =? 0) && negb (Z.rem year 100 =? 0)) || (Z.rem year 400 =? 0).

(** The [switch] of the source; every month index that is not listed,
    12 and -1 included, takes the [default] branch. *)
Definition daysInMonth (month year : Z) : Z :=
  if (month =? 0) || (month =? 2) || (month =? 4) || (month =? 6)
     || (month =? 7) || (month =? 9) || (month =? 11) then 31
  else if month =? 1 then (if isLeapYear year then 29 else 28)
  else 30.

(* ================================================================== *)
(** ** The JavaScript [Date] object (ECMA-262, section "Date Objects") *)
(* ================================================================== *)

Module JSDate.

(** A date is its local time value in milliseconds. *)
Record Date : Type := mkDate { timeValue : Z }.

Definition msPerDay : Z := 86400000.

Definition Day (t : Z) : Z := t / msPerDay.
Definition TimeWithinDay (t : Z) : Z := t mod msPerDay.

Definition DaysInYear (y : Z) : Z :=
  if negb (y mod 4 =? 0) then 365
  else if negb (y mod 100 =? 0) then 366
  else if negb (y mod 400 =? 0) then 365
  else 366.

Definition DayFromYear (y : Z) : Z :=
  365 * (y - 1970) + (y - 1969) / 4 - (y - 1901) / 100 + (y - 1601) / 400.

(** [YearFromDay d] is the largest [y] with [DayFromYear y <= d]
    (lemma [YearFromDay_spec]): a first guess from the mean length of a
    year, 146097/400 days, is off by at most one. *)
Definition YearFromDay (d : Z) : Z :=
  let y := 1970 + (400 * d) / 146097 in
  if d <? DayFromYear y then y - 1
  else if DayFromYear (y + 1) <=? d then y + 1
  else y.

Definition YearFromTime (t : Z) : Z := YearFromDay (Day t).

Definition InLeapYear (t : Z) : Z :=
  if DaysInYear (YearFromTime t) =? 366 then 1 else 0.

Definition DayWithinYear (t : Z) : Z :=
  Day t - DayFromYear (YearFromTime t).

(** The table of ECMA-262: the month from the day within the year. *)
Definition MonthFromTime (t : Z) : Z :=
  let d := DayWithinYear t in
  let l := InLeapYear t in
  if d <? 31 then 0
  else if d <? 59 + l then 1
  else if d <? 90 + l then 2
  else if d <? 120 + l then 3
  else if d <? 151 + l then 4
  else if d <? 181 + l then 5
  else if d <? 212 + l then 6
  else if d <? 243 + l then 7
  else if d <? 273 + l then 8
  else if d <? 304 + l then 9
  else if d <? 334 + l then 10
  else 11.

(** Days of the year before the first day of month [m] (0-based). *)
Definition DaysBeforeMonth (m l : Z) : Z :=
  if m =? 0 then 0
  else if m =? 1 then 31
  else if m =? 2 then 59 + l
  else if m =? 3 then 90 + l
  else if m =? 4 then 120 + l
  else if m =? 5 then 151 + l
  else if m =? 6 then 181 + l
  else if m =? 7 then 212 + l
  else if m =? 8 then 243 + l
  else if m =? 9 then 273 + l
  else if m =? 10 then 304 + l
  else 334 + l.

Definition DateFromTime (t : Z) : Z :=
  DayWithinYear t - DaysBeforeMonth (MonthFromTime t) (InLeapYear t) + 1.

(** [MakeDay]: months outside 0..11 carry into the year, and the day of
    the month is added as an offset, so it may run over the month's end. *)
Definition MakeDay (year month date : Z) : Z :=
  let ym := year + month / 12 in
  let mn := month mod 12 in
  let l := if DaysInYear ym =? 366 then 1 else 0 in
  DayFromYear ym + DaysBeforeMonth mn l + date - 1.

Definition MakeDate (day time : Z) : Z := day * msPerDay + time.

(** [new Date(year, month, date)]: midnight of that day; a year from 0
    to 99 stands for 1900 + year.  This is the date value before
    [TimeClip]: the [Date] of the source when it is within the range of
    time values, where the source has an Invalid Date beyond it. *)
Definition ofYMD (year month date : Z) : Date :=
  let yr := if (0 <=? year) && (year <=? 99) then 1900 + year else year in
  mkDate (MakeDate (MakeDay yr month date) 0).

Definition getFullYear (d : Date) : Z := YearFromTime (timeValue d).
Definition getMonth (d : Date) : Z := MonthFromTime (timeValue d).
Definition getDate (d : Date) : Z := DateFromTime (timeValue d).

(** The setters keep the time within the day and the two fields they are
    not given.  They are the setters of the source as long as the date
    they make is within the range of time values; beyond it the source
    has an Invalid Date, NaN, that no comparison finds before or after
    another date. *)
Definition setFullYear (y : Z) (d : Date) : Date :=
  let t := timeValue d in
  mkDate (MakeDate (MakeDay y (MonthFromTime t) (DateFromTime t))
                   (TimeWithinDay t)).

Definition setMonth (m : Z) (d : Date) : Date :=
  let t := timeValue d in
  mkDate (MakeDate (MakeDay (YearFromTime t) m (DateFromTime t))
                   (TimeWithinDay t)).

Definition setDate (dt : Z) (d : Date) : Date :=
  let t := timeValue d in
  mkDate (MakeDate (MakeDay (YearFromTime t) (MonthFromTime t) dt)
                   (TimeWithinDay t)).

(** [a > b] and [a < b] on dates compare the time values. *)
Definition gtb (a b : Date) : bool := timeValue b <? timeValue a.
Definition ltb (a b : Date) : bool := timeValue a <? timeValue b.

(** A date with a time of day: [new Date(y, m, d, h, mi)]. *)
Definition ofYMDhm (year month date h mi : Z) : Date :=
  mkDate (timeValue (ofYMD year month date) + h * 3600000 + mi * 60000).

End JSDate.

Import JSDate.

(* ================================================================== *)
(** ** The data of the hook                                            *)
(* ================================================================== *)

(** [type ViewState = "date" | "month" | "year"]. *)
Inductive ViewState : Type := view_date | view_month | view_year.

Definition ViewState_eqb (a b : ViewState) : bool :=
  match a, b with
  | view_date, view_date | view_month, view_month | view_year, view_year => true
  | _, _ => false
  end.

(** [interface DatepickerConfig]; an optional field is an [option]. *)
Record DatepickerConfig : Type := mkConfig {
  date : Date;
  minDate : option Date;
  maxDate : option Date
}.

(** [interface MonthYear]. *)
Module MonthYear.
Record t : Type := mk { month : Z; year : Z }.
End MonthYear.

(** [interface DateValidator]: [day] and [month] are optional. *)
Module DateValidator.
Record t : Type := mk { day : option Z; month : option Z; year : Z }.

Definition set_month (m : Z) (d : t) : t :=
  mk (day d) (Some m) (year d).
Definition set_day (x : Z) (d : t) : t :=
  mk (Some x) (month d) (year d).
End DateValidator.

(** [x == undefined] on an optional number. *)
Definition is_undefined (x : option Z) : bool :=
  match x with None => true | Some _ => false end.

(** [!x] on an optional number: [undefined] and [0] are falsy. *)
Definition falsy (x : option Z) : bool :=
  match x with None => true | Some n => n =? 0 end.

(** Reading a field that holds a number; [isValid] reads [month] and [day]
    only after it has filled them in. *)
Definition num (x : option Z) : Z :=
  match x with Some n => n | None => 0 end.

(* ================================================================== *)
(** ** ValidityEngine: [isValid]                                       *)
(* ================================================================== *)

(** [isValid] closes over [view], [minDate] and [maxDate], reads the wall
    clock ([new Date()], here [now]) and assigns to the fields of its
    argument: the candidate as the call leaves it is returned with the
    result.  A [Date] object is truthy, so [minDate && ...] tests that
    the bound is configured. *)
Definition isValid (now : Date) (view : ViewState)
    (minDate maxDate : option Date) (d : DateValidator.t)
    : bool * DateValidator.t :=
  let d := if is_undefined (DateValidator.month d)
           then DateValidator.set_month 12 d else d in
  let d := if falsy (DateValidator.day d)
           then DateValidator.set_day
                  (daysInMonth (num (DateValidator.month d))
                               (DateValidator.year d)) d
           else d in
  let d_year := DateValidator.year d in
  let d_month := num (DateValidator.month d) in
  let d_day := num (DateValidator.day d) in
  let _date := now in
  let _date := setFullYear d_year _date in
  let _date := setMonth d_month _date in
  let _date := setDate d_day _date in
  let _date := if negb (ViewState_eqb view view_date)
               then setMonth (d_month - 1) _date else _date in
  if ViewState_eqb view view_year then
    if match minDate with
       | Some mn => d_year <? getFullYear mn | None => false end
    then (false, d)
    else if match maxDate with
            | Some mx => getFullYear mx <? d_year | None => false end
    then (false, d)
    else (true, d)
  else
    let _date := setDate (d_day - 1) _date in
    if match maxDate with Some mx => gtb _date mx | None => false end
    then (false, d)
    else if match minDate with Some mn => ltb _date mn | None => false end
    then (false, d)
    else (true, d).

(** The reference instant that Date and Month view compare with the
    range: [_date] as the last [setDate] leaves it. *)
Definition referenceDate (now : Date) (view : ViewState)
    (d_year d_month d_day : Z) : Date :=
  let _date := setDate d_day (setMonth d_month (setFullYear d_year now)) in
  let _date := if negb (ViewState_eqb view view_date)
               then setMonth (d_month - 1) _date else _date in
  setDate (d_day - 1) _date.

(* ================================================================== *)
(** ** The hook [useDatepickerCtx]: state, handlers and effect         *)
(* ================================================================== *)

(** The three [useState] cells, and whether the effect's [mousedown]
    listener is registered on the document. *)
Record HookState : Type := mkState {
  monthYear : MonthYear.t;
  view : ViewState;
  isVisible : bool;
  listening : bool
}.

(** The initial values of the cells; [config.date] is always there, so
    the fallback to the wall clock is not taken.  The effect of the first
    render finds [isVisible] false and registers nothing. *)
Definition initialState (config : DatepickerConfig) : HookState :=
  mkState (MonthYear.mk (getMonth (date config)) (getFullYear (date config)))
          view_date false false.

(** [isSelected], read against the state of the current render. *)
Definition isSelected (config : DatepickerConfig) (s : HookState) (d : Z)
    : bool :=
  let dateCheck := d =? getDate (date config) in
  let monthCheck := MonthYear.month (monthYear s) =? getMonth (date config) in
  let yearCheck := MonthYear.year (monthYear s) =? getFullYear (date config) in
  let '(dateCheck, monthCheck) :=
    if negb (ViewState_eqb (view s) view_date)
    then (true, d =? getMonth (date config))
    else (dateCheck, monthCheck) in
  let '(monthCheck, yearCheck) :=
    if ViewState_eqb (view s) view_year
    then (true, d =? getFullYear (date config))
    else (monthCheck, yearCheck) in
  dateCheck && monthCheck && yearCheck.

(** What can happen to the hook: a call of one of the functions it
    returns, or a [mousedown] on the document.  [MouseDown r c] carries
    whether [ref.current] is set and whether it contains the target. *)
Inductive Event : Type :=
| NextMonth | PrevMonth | NextYear | PrevYear | NextDecade | PrevDecade
| SelectMonth (m : Z) | SelectYear (y : Z) | SelectDate (d : Z)
| ViewMonths | ViewYears
| ShowCalendar | ToggleCalendar
| MouseDown (refCurrent contains : bool).

Definition setMonthYear (f : MonthYear.t -> MonthYear.t) (s : HookState)
    : HookState :=
  mkState (f (monthYear s)) (view s) (isVisible s) (listening s).
Definition setView (v : ViewState) (s : HookState) : HookState :=
  mkState (monthYear s) v (isVisible s) (listening s).
Definition setVisible (f : bool -> bool) (s : HookState) : HookState :=
  mkState (monthYear s) (view s) (f (isVisible s)) (listening s).
Definition setListening (b : bool) (s : HookState) : HookState :=
  mkState (monthYear s) (view s) (isVisible s) b.

(** The body of each handler: the next values of the cells, and the
    dates [onChange] is called with, in order.  The steps on the year are
    those of the source on safe integers; from 2^53 on the source's
    numbers round. *)
Definition handler (e : Event) (s : HookState) : HookState * list Date :=
  match e with
  | NextMonth =>
      (setMonthYear (fun state =>
         if 11 <=? MonthYear.month state
         then MonthYear.mk 0 (MonthYear.year state + 1)
         else MonthYear.mk (MonthYear.month state + 1) (MonthYear.year state))
         s, [])
  | PrevMonth =>
      (setMonthYear (fun state =>
         if MonthYear.month state <=? 0
         then MonthYear.mk 11 (MonthYear.year state - 1)
         else MonthYear.mk (MonthYear.month state - 1) (MonthYear.year state))
         s, [])
  | NextYear =>
      (setMonthYear (fun state =>
         MonthYear.mk (MonthYear.month state) (MonthYear.year state + 1)) s, [])
  | PrevYear =>
      (setMonthYear (fun state =>
         MonthYear.mk (MonthYear.month state) (MonthYear.year state - 1)) s, [])
  | NextDecade =>
      (setMonthYear (fun state =>
         MonthYear.mk (MonthYear.month state) (MonthYear.year state + 12)) s, [])
  | PrevDecade =>
      (setMonthYear (fun state =>
         MonthYear.mk (MonthYear.month state) (MonthYear.year state - 12)) s, [])
  | SelectMonth m =>
      (setView view_date
         (setMonthYear (fun state => MonthYear.mk m (MonthYear.year state)) s),
       [])
  | SelectYear y =>
      (setView view_month
         (setMonthYear (fun state => MonthYear.mk (MonthYear.month state) y) s),
       [])
  | SelectDate d =>
      (setVisible (fun _ => false) s,
       [ofYMD (MonthYear.year (monthYear s)) (MonthYear.month (monthYear s)) d])
  | ViewMonths => (setView view_month s, [])
  | ViewYears => (setView view_year s, [])
  | ShowCalendar => (setVisible (fun _ => true) s, [])
  | ToggleCalendar => (setVisible negb s, [])
  | MouseDown refCurrent contains =>
      if listening s && (refCurrent && negb contains)
      then (setView view_date (setVisible (fun _ => false) s), [])
      else (s, [])
  end.

(** [useEffect(..., [isVisible])]: after a render in which [isVisible]
    differs from the previous one, the clean-up of the previous effect
    removes the listener, and the effect, when the popup is visible, sets
    [monthYear] from the configured date and registers the listener. *)
Definition effect (config : DatepickerConfig) (before after : HookState)
    : HookState :=
  if Bool.eqb (isVisible before) (isVisible after) then after
  else
    let s := setListening false after in
    if isVisible s
    then setListening true
           (setMonthYear (fun _ => MonthYear.mk (getMonth (date config))
                                                (getFullYear (date config))) s)
    else s.

(** One event, run to completion: handler, render, effect.  [config] is
    the configuration the host passes at that render. *)
Definition dispatch (config : DatepickerConfig) (e : Event) (s : HookState)
    : HookState * list Date :=
  let '(s', calls) := handler e s in (effect config s s', calls).

Definition step (config : DatepickerConfig) (e : Event) (s : HookState)
    : HookState := fst (dispatch config e s).

(** A run of events under one configuration. *)
Definition run (config : DatepickerConfig) (es : list Event) (s : HookState)
    : HookState := fold_left (fun s e => step config e s) es s.

(** The states the hook can be in: the host may pass another
    configuration at every render. *)
Inductive reachable : HookState -> Prop :=
| reachable_init config : reachable (initialState config)
| reachable_step config e s :
    reachable s -> reachable (step config e s).

(** The calls of [onChange] an event makes. *)
Definition onChangeCalls (config : DatepickerConfig) (e : Event)
    (s : HookState) : list Date := snd (dispatch config e s).

(** [ViewAnchor.month] within 0..11. *)
Definition monthInRange (s : HookState) : Prop :=
  0 <= MonthYear.month (monthYear s) <= 11.

(** The events of the invariant on the month: [selectMonth] is given a
    month index. *)
Definition monthArgument (e : Event) : Prop :=
  match e with SelectMonth m => 0 <= m <= 11 | _ => True end.

(* ================================================================== *)
(** ** Sample data                                                     *)
(* ================================================================== *)

(** The range of the year 2023: [minDate = new Date(2023, 0, 1)] and
    [maxDate = new Date(2023, 11, 31)]. *)
Definition min2023 : option Date := Some (ofYMD 2023 0 1).
Definition max2023 : option Date := Some (ofYMD 2023 11 31).

(** A wall clock: 15 June 2023 at noon, and the same day at midnight. *)
Definition noon : Date := ofYMDhm 2023 5 15 12 0.
Definition midnight : Date := ofYMD 2023 5 15.

(** Another wall clock: 31 January 2023 at noon. *)
Definition endOfJanuary : Date := ofYMDhm 2023 0 31 12 0.

(** The configuration [{date: new Date(2023, 2, 10)}], without a range. *)
Definition config2023 : DatepickerConfig :=
  mkConfig (ofYMD 2023 2 10) None None.

(** The candidates the widget passes: [{day, month, year}] from the day
    grid, [{month, year}] from the month grid, [{year}] from the year
    grid. *)
Definition dayCell (y m d : Z) : DateValidator.t :=
  DateValidator.mk (Some d) (Some m) y.
Definition monthCell (y m : Z) : DateValidator.t :=
  DateValidator.mk None (Some m) y.
Definition yearCell (y : Z) : DateValidator.t :=
  DateValidator.mk None None y.

(** A date of the calendar: a month index and a day of that month, by
    the source's own [daysInMonth]. *)
Definition validDate (y m dt : Z) : Prop :=
  0 <= m <= 11 /\ 1 <= dt <= daysInMonth m y.


(** The years that lie within that range from their first day to their
    last: it begins on 20 April -271821 and ends on 13 September 275760. *)
Definition dateYear (y : Z) : Prop := -271820 <= y <= 275759.

(** [Number.isSafeInteger]: the integers on which [+] and [-] of
    JavaScript numbers are exact. *)
Definition safeInteger (n : Z) : Prop := - 2 ^ 53 < n < 2 ^ 53.

(** A date as the fields [y], [m], [dt] at the time of day [tod]. *)
Definition hasFields (d : Date) (y m dt tod : Z) : Prop :=
  getFullYear d = y /\ getMonth d = m /\ getDate d = dt /\
  TimeWithinDay (timeValue d) = tod.

(** The two comparisons that end [isValid] in Date and Month view, on the
    instant [r] it has built. *)
Definition inRange (r : Date) (mn mx : option Date) : bool :=
  negb (match mx with Some M => gtb r M | None => false end)
  && negb (match mn with Some N => ltb r N | None => false end).

(* ================================================================== *)
(** ** The widget: [Datepicker.tsx]                                    *)
(* ================================================================== *)

(** [WeekDay] of ECMA-262 (day 0 of the epoch was a Thursday) and
    [Date.prototype.getDay]: 0 is Sunday. *)
Definition WeekDay (t : Z) : Z := (Day t + 4) mod 7.
Definition getDay (d : Date) : Z := WeekDay (timeValue d).

Definition daysOfWeekNames : list String.string :=
  ["Sunday"; "Monday"; "Tuesday"; "Wednesday"; "Thursday"; "Friday";
   "Saturday"]%string.

Definition monthNames : list String.string :=
  ["January"; "February"; "March"; "April"; "May"; "June"; "July";
   "August"; "September"; "October"; "November"; "December"]%string.

(** [a[i]] on an array: [undefined] outside its indices. *)
Definition lookup {A : Type} (a : list A) (i : Z) : option A :=
  if i <? 0 then None else nth_error a (Z.to_nat i).

(** A number in a template string or as text: the decimal digits of an
    integer, with a minus sign when it is negative (integers below 1e21
    in absolute value, beyond which JavaScript switches to an exponent). *)
Definition showZ (n : Z) : String.string :=
  DecimalString.NilZero.string_of_int (Z.to_int n).

(** The space character, and a text without a space in it. *)
Definition space : Ascii.ascii :=
  Ascii.Ascii false false false false false true false false.

Fixpoint noSpace (s : String.string) : Prop :=
  match s with
  | String.EmptyString => True
  | String.String c rest => c <> space /\ noSpace rest
  end.

(** [formattedDate]: the text of the input box. *)
Definition formattedDate (d : Date) : String.string :=
  String.append (showZ (getDate d))
    (String.append " "
       (String.append
          (match lookup monthNames (getMonth d) with
           | Some name => name | None => "undefined"%string end)
          (String.append " " (showZ (getFullYear d))))).

(** [beginningDayOfWeek]: the week day of the first of the month (NaN
    in the source when that day is beyond the range of time values). *)
Definition beginningDayOfWeek (m y : Z) : Z := getDay (ofYMD y m 1).

(** [for (let i = lo; i < hi; i++)]: the values [i] takes. *)
Definition zrange (lo hi : Z) : list Z :=
  map (fun k => lo + Z.of_nat k) (seq 0 (Z.to_nat (hi - lo))).

(** [a.map((x, index) => f(x, index))]. *)
Fixpoint mapi_from {A B : Type} (f : A -> Z -> B) (index : Z) (a : list A)
    : list B :=
  match a with
  | [] => []
  | x :: rest => f x index :: mapi_from f (index + 1) rest
  end.

Definition mapi {A B : Type} (f : A -> Z -> B) (a : list A) : list B :=
  mapi_from f 0 a.

(** What a button shows: a number, a text, one of the icons, or nothing
    (an [undefined] child). *)
Inductive Label : Type :=
| Num (n : Z) | Text (s : String.string)
| ChevronLeft | ChevronRight | CalendarIcon | NoLabel.

(** A rendered [<button>]: its child, whether its class is the one of the
    selected cell ("bg-blue-400 ..."), whether it is the grey one
    ("text-gray-300"), and its [onClick], the call it makes. *)
Record Button : Type := mkButton {
  label : Label;
  highlighted : bool;
  greyed : bool;
  onClick : option Event
}.

(** A cell of a grid: an empty [<div>] or a button. *)
Inductive Cell : Type := EmptyCell | ButtonCell (b : Button).

(** [CalButton]: the chevron, when given, replaces the children. *)
Definition CalButton (chevron : option bool) (highlighted greyed : bool)
    (onClick : option Event) (children : Label) : Button :=
  mkButton (match chevron with
            | Some true => ChevronLeft
            | Some false => ChevronRight
            | None => children
            end) highlighted greyed onClick.

(** What a selection component returns: the buttons of its first row, the
    letters of the week days (day grid only) and the cells of the grid. *)
Record Selection : Type := mkSelection {
  header : list Button;
  weekdays : list String.string;
  cells : list Cell
}.

Section Widget.

(** The context value of one render: the configuration, the state of the
    hook, and the wall clock read by the call of [isValid] for the cell
    [i]. *)
Variable clock : Z -> Date.
Variable config : DatepickerConfig.
Variable s : HookState.

Definition ctx_isValid (d : DateValidator.t) (i : Z) : bool :=
  fst (isValid (clock i) (view s) (minDate config) (maxDate config) d).

Definition DateSelection : Selection :=
  let month := MonthYear.month (monthYear s) in
  let year := MonthYear.year (monthYear s) in
  let emptyBefore :=
    map (fun _ => EmptyCell) (zrange 0 (beginningDayOfWeek month year)) in
  let days :=
    map (fun i =>
           if ctx_isValid (DateValidator.mk (Some i) (Some month) year) i
           then ButtonCell (mkButton (Num i) (isSelected config s i) false
                                     (Some (SelectDate i)))
           else ButtonCell (mkButton (Num i) false true None))
        (zrange 1 (daysInMonth month year + 1)) in
  mkSelection
    [ mkButton ChevronLeft false false (Some PrevMonth);
      mkButton (match lookup monthNames month with
                | Some name => Text name | None => NoLabel end)
               false false (Some ViewMonths);
      mkButton (Num year) false false (Some ViewYears);
      mkButton ChevronRight false false (Some NextMonth) ]
    (map (String.substring 0 1) daysOfWeekNames)
    (emptyBefore ++ days).

Definition MonthSelection : Selection :=
  let year := MonthYear.year (monthYear s) in
  mkSelection
    [ CalButton (Some true) false false (Some PrevYear) NoLabel;
      CalButton None false false (Some ViewYears) (Num year);
      CalButton (Some false) false false (Some NextYear) NoLabel ]
    []
    (mapi (fun month index =>
             if ctx_isValid (DateValidator.mk None (Some index) year) index
             then ButtonCell
                    (CalButton None (isSelected config s index) false
                       (Some (SelectMonth index))
                       (Text (String.substring 0 3 month)))
             else ButtonCell
                    (CalButton None false true None
                       (Text (String.substring 0 3 month))))
          monthNames).

(** The loop over the years is the one of the source for years that are
    safe integers: from 2^53 on its [i++] rounds. *)
Definition YearSelection : Selection :=
  let year := MonthYear.year (monthYear s) in
  let minYear := year - 6 in
  let maxYear := year + 6 in
  mkSelection
    [ CalButton (Some true) false false (Some PrevDecade) NoLabel;
      CalButton None false false None
        (Text (String.append (showZ minYear)
                 (String.append " - " (showZ (maxYear - 1)))));
      CalButton (Some false) false false (Some NextDecade) NoLabel ]
    []
    (map (fun i =>
            if ctx_isValid (DateValidator.mk None None i) i
            then ButtonCell
                   (CalButton None (isSelected config s i) false
                      (Some (SelectYear i)) (Num i))
            else ButtonCell (CalButton None false true None (Num i)))
         (zrange minYear maxYear)).

(** [Calendar]: the selection component of the current view. *)
Definition Calendar : Selection :=
  match view s with
  | view_date => DateSelection
  | view_month => MonthSelection
  | view_year => YearSelection
  end.

(** [RawDatePicker]: the read-only input with its [onFocus], the button
    with its [onClick], and the popup when [isVisible]. *)
Record Rendered : Type := mkRendered {
  inputValue : String.string;
  inputOnFocus : Event;
  toggleButton : Button;
  popup : option Selection
}.

Definition RawDatePicker : Rendered :=
  mkRendered (formattedDate (date config)) ShowCalendar
    (mkButton CalendarIcon false false (Some ToggleCalendar))
    (if isVisible s then Some Calendar else None).

End Widget.

(** The calls wired to the cells of a grid, and to a whole render. *)
Definition cellClicks (cs : list Cell) : list Event :=
  flat_map (fun c => match c with
                     | ButtonCell b =>
                         match onClick b with Some e => [e] | None => [] end
                     | EmptyCell => []
                     end) cs.

Definition buttonClicks (bs : list Button) : list Event :=
  flat_map (fun b => match onClick b with Some e => [e] | None => [] end) bs.

Definition handlers (r : Rendered) : list Event :=
  inputOnFocus r :: buttonClicks [toggleButton r] ++
  match popup r with
  | Some sel => buttonClicks (header sel) ++ cellClicks (cells sel)
  | None => []
  end.

(** The states the widget can bring the hook to: from a render, a call
    wired to one of its elements, or a [mousedown] on the document.  The
    render after the event may come with another configuration. *)
Inductive widgetReachable : HookState -> Prop :=
| widget_init config : widgetReachable (initialState config)
| widget_event clock config config' e s :
    widgetReachable s ->
    In e (handlers (RawDatePicker clock config s)) ->
    widgetReachable (step config' e s)
| widget_mousedown config refCurrent contains s :
    widgetReachable s ->
    widgetReachable (step config (MouseDown refCurrent contains) s).

(** The order of the calendar on year, month, day. *)
Definition dateLt (a b : Z * Z * Z) : Prop :=
  let '(y1, m1, d1) := a in
  let '(y2, m2, d2) := b in
  y1 < y2 \/ (y1 = y2 /\ (m1 < m2 \/ (m1 = m2 /\ d1 < d2))).

(** The day that Month view compares with the range for the cell of
    month [m] of year [y], as year, month, day. *)
Definition monthViewReference (y m : Z) : Z * Z * Z :=
  if m =? 0 then (y - 1, 11, 30)
  else if (m =? 2) || (m =? 4) || (m =? 6) || (m =? 9) || (m =? 11)
  then (y, m, 30)
  else (y, m - 1, daysInMonth m y - 1).

(* ================================================================== *)
(** ** Calendar facts                                                  *)
(* ================================================================== *)

Ltac month_cases m :=
  let H := fresh in
  assert (H : m = 0 \/ m = 1 \/ m = 2 \/ m = 3 \/ m = 4 \/ m = 5 \/ m = 6 \/
              m = 7 \/ m = 8 \/ m = 9 \/ m = 10 \/ m = 11) by lia;
  repeat (destruct H as [H|H]; [subst m|]); [..|subst m].

Ltac decide_ltb :=
  repeat match goal with
         | |- context [?a <? ?b] => destruct (Z.ltb_spec a b); try lia
         end.

Lemma rem_zero_iff_divide (a b : Z) :
  b <> 0 -> (Z.rem a b =? 0) = true <-> (b | a).
Proof.
  intros Hb. rewrite Z.eqb_eq. split.
  - intros H. exists (Z.quot a b).
    pose proof (Z.quot_rem' a b) as E. rewrite H in E. lia.
  - intros [k ->]. apply Z.rem_mul. exact Hb.
Qed.

Lemma rem_zero_iff_mod_zero (a b : Z) :
  b <> 0 -> (Z.rem a b =? 0) = (a mod b =? 0).
Proof.
  intros Hb. apply eq_true_iff_eq.
  rewrite rem_zero_iff_divide by exact Hb.
  rewrite Z.eqb_eq. symmetry. apply Z.mod_divide. exact Hb.
Qed.

(** The leap-year rule of the source is the one of the [Date] object. *)
Lemma isLeapYear_DaysInYear (y : Z) :
  DaysInYear y = if isLeapYear y then 366 else 365.
Proof.
  unfold isLeapYear, DaysInYear.
  rewrite !rem_zero_iff_mod_zero by lia.
  destruct (y mod 4 =? 0) eqn:E4, (y mod 100 =? 0) eqn:E100,
           (y mod 400 =? 0) eqn:E400; cbn; try reflexivity;
    rewrite ?Z.eqb_eq, ?Z.eqb_neq in *; exfalso;
    Z.div_mod_to_equations; lia.
Qed.

Lemma DayFromYear_succ (y : Z) :
  DayFromYear (y + 1) = DayFromYear y + DaysInYear y.
Proof.
  unfold DayFromYear, DaysInYear.
  destruct (y mod 4 =? 0) eqn:E4, (y mod 100 =? 0) eqn:E100,
           (y mod 400 =? 0) eqn:E400; cbn [negb];
    rewrite ?Z.eqb_eq, ?Z.eqb_neq in *;
    Z.div_mod_to_equations; lia.
Qed.

(** [YearFromDay d] is the year whose days include day [d]. *)
Lemma YearFromDay_spec (d : Z) :
  DayFromYear (YearFromDay d) <= d < DayFromYear (YearFromDay d + 1).
Proof.
  unfold YearFromDay.
  set (y := 1970 + 400 * d / 146097).
  destruct (d <? DayFromYear y) eqn:E1;
    [|destruct (DayFromYear (y + 1) <=? d) eqn:E2];
    rewrite ?Z.ltb_lt, ?Z.ltb_ge, ?Z.leb_le, ?Z.leb_gt in *.
  - replace (y - 1 + 1) with y by lia. split; [|lia].
    subst y. unfold DayFromYear in *. Z.div_mod_to_equations. lia.
  - split; [lia|].
    subst y. unfold DayFromYear in *. Z.div_mod_to_equations. lia.
  - lia.
Qed.

Lemma MonthFromTime_range (t : Z) : 0 <= MonthFromTime t <= 11.
Proof.
  unfold MonthFromTime.
  repeat match goal with
         | |- context [if ?b then _ else _] => destruct b
         end; lia.
Qed.

Lemma DayFromYear_mono (y1 y2 : Z) :
  y1 <= y2 -> DayFromYear y1 <= DayFromYear y2.
Proof.
  intros H. unfold DayFromYear. Z.div_mod_to_equations. lia.
Qed.

Lemma YearFromDay_unique (y d : Z) :
  DayFromYear y <= d < DayFromYear (y + 1) -> YearFromDay d = y.
Proof.
  intros H. pose proof (YearFromDay_spec d) as S.
  destruct (Z.lt_trichotomy (YearFromDay d) y) as [L|[E|G]]; [|exact E|].
  - pose proof (DayFromYear_mono (YearFromDay d + 1) y ltac:(lia)). lia.
  - pose proof (DayFromYear_mono (y + 1) (YearFromDay d) ltac:(lia)). lia.
Qed.

Lemma TimeWithinDay_range (t : Z) : 0 <= TimeWithinDay t < msPerDay.
Proof. unfold TimeWithinDay, msPerDay. apply Z.mod_pos_bound. lia. Qed.

Lemma Day_MakeDate (dn tod : Z) :
  0 <= tod < msPerDay -> Day (MakeDate dn tod) = dn.
Proof.
  intros H. unfold Day, MakeDate, msPerDay in *.
  Z.div_mod_to_equations. lia.
Qed.

Lemma TimeWithinDay_MakeDate (dn tod : Z) :
  0 <= tod < msPerDay -> TimeWithinDay (MakeDate dn tod) = tod.
Proof.
  intros H. unfold TimeWithinDay, MakeDate, msPerDay in *.
  Z.div_mod_to_equations. lia.
Qed.

(** The day within the year lies in the year. *)
Lemma DayWithinYear_range (t : Z) :
  0 <= DayWithinYear t < DaysInYear (YearFromTime t).
Proof.
  unfold DayWithinYear, YearFromTime.
  pose proof (YearFromDay_spec (Day t)) as S.
  rewrite DayFromYear_succ in S. lia.
Qed.

Lemma InLeapYear_isLeapYear (t : Z) :
  InLeapYear t = if isLeapYear (YearFromTime t) then 1 else 0.
Proof.
  unfold InLeapYear. rewrite isLeapYear_DaysInYear.
  destruct (isLeapYear _); reflexivity.
Qed.

Lemma DateFromTime_range (t : Z) :
  1 <= DateFromTime t <= daysInMonth (MonthFromTime t) (YearFromTime t).
Proof.
  pose proof (DayWithinYear_range t) as R.
  rewrite isLeapYear_DaysInYear in R.
  unfold DateFromTime, MonthFromTime. rewrite InLeapYear_isLeapYear.
  unfold daysInMonth.
  generalize dependent (DayWithinYear t). intros d.
  unfold DaysBeforeMonth.
  destruct (isLeapYear (YearFromTime t)); intros R; decide_ltb;
    cbn [Z.eqb Pos.eqb orb]; lia.
Qed.

Lemma MakeDay_in_range (y m dt : Z) :
  0 <= m <= 11 ->
  MakeDay y m dt
  = DayFromYear y + DaysBeforeMonth m (if isLeapYear y then 1 else 0) + dt - 1.
Proof.
  intros Hm. unfold MakeDay.
  rewrite Z.div_small, Z.mod_small, Z.add_0_r by lia.
  rewrite isLeapYear_DaysInYear. destruct (isLeapYear y); reflexivity.
Qed.

(** The fields of a time value built by [MakeDay] from a date of the
    calendar are that date. *)
Lemma fields_of_MakeDay (y m dt tod : Z) :
  validDate y m dt -> 0 <= tod < msPerDay ->
  let t := MakeDate (MakeDay y m dt) tod in
  YearFromTime t = y /\ MonthFromTime t = m /\ DateFromTime t = dt.
Proof.
  intros [Hm Hd] Htod t.
  assert (Hday : Day t = MakeDay y m dt) by (apply Day_MakeDate; exact Htod).
  rewrite MakeDay_in_range in Hday by exact Hm.
  set (l := if isLeapYear y then 1 else 0) in *.
  assert (Hoff : 0 <= DaysBeforeMonth m l + dt - 1 < DaysInYear y).
  { rewrite isLeapYear_DaysInYear. unfold daysInMonth in Hd. subst l.
    clear - Hm Hd. revert Hd.
    unfold DaysBeforeMonth.
    month_cases m; destruct (isLeapYear y); cbn [Z.eqb Pos.eqb orb]; lia. }
  assert (Hy : YearFromTime t = y).
  { unfold YearFromTime. apply YearFromDay_unique.
    rewrite DayFromYear_succ, Hday. lia. }
  assert (Hl : InLeapYear t = l).
  { rewrite InLeapYear_isLeapYear, Hy. reflexivity. }
  assert (Hw : DayWithinYear t = DaysBeforeMonth m l + dt - 1).
  { unfold DayWithinYear. rewrite Hy, Hday. lia. }
  assert (Hmo : MonthFromTime t = m).
  { unfold MonthFromTime. rewrite Hw, Hl. unfold daysInMonth in Hd. subst l.
    clear - Hm Hd. revert Hd.
    unfold DaysBeforeMonth.
    month_cases m; destruct (isLeapYear y); cbn [Z.eqb Pos.eqb orb];
      intros Hd; decide_ltb; reflexivity. }
  split; [exact Hy|]. split; [exact Hmo|].
  unfold DateFromTime. rewrite Hmo, Hw, Hl. lia.
Qed.

Lemma daysInMonth_ge_28 (m y : Z) : 28 <= daysInMonth m y.
Proof.
  unfold daysInMonth.
  repeat match goal with
         | |- context [if ?b then _ else _] => destruct b
         end; lia.
Qed.

Lemma hasFields_own (d : Date) :
  hasFields d (getFullYear d) (getMonth d) (getDate d)
            (TimeWithinDay (timeValue d)).
Proof. repeat split. Qed.

Lemma hasFields_valid (d : Date) (y m dt tod : Z) :
  hasFields d y m dt tod -> validDate y m dt /\ 0 <= tod < msPerDay.
Proof.
  intros (<- & <- & <- & <-). split; [split|].
  - apply MonthFromTime_range.
  - apply DateFromTime_range.
  - apply TimeWithinDay_range.
Qed.

Lemma hasFields_MakeDay (y m dt tod : Z) :
  validDate y m dt -> 0 <= tod < msPerDay ->
  hasFields (mkDate (MakeDate (MakeDay y m dt) tod)) y m dt tod.
Proof.
  intros Hv Ht. destruct (fields_of_MakeDay y m dt tod Hv Ht) as (A & B & C).
  repeat split; cbn; try assumption.
  apply TimeWithinDay_MakeDate. exact Ht.
Qed.

(** The setters on a date whose day of the month every month has. *)
Lemma setFullYear_fields (d : Date) (y m dt tod y' : Z) :
  hasFields d y m dt tod -> dt <= 28 ->
  hasFields (setFullYear y' d) y' m dt tod.
Proof.
  intros H Hd. destruct (hasFields_valid _ _ _ _ _ H) as [[Hm Hdt] Ht].
  destruct H as (Hy & Hmo & Hda & Hto). unfold setFullYear.
  unfold getMonth, getDate in *. rewrite Hmo, Hda, Hto.
  apply hasFields_MakeDay; [|exact Ht].
  split; [exact Hm|]. pose proof (daysInMonth_ge_28 m y'). lia.
Qed.

Lemma setMonth_fields (d : Date) (y m dt tod m' : Z) :
  hasFields d y m dt tod -> dt <= 28 -> 0 <= m' <= 11 ->
  hasFields (setMonth m' d) y m' dt tod.
Proof.
  intros H Hd Hm'. destruct (hasFields_valid _ _ _ _ _ H) as [[Hm Hdt] Ht].
  destruct H as (Hy & Hmo & Hda & Hto). unfold setMonth.
  unfold getFullYear, getDate in *. rewrite Hy, Hda, Hto.
  apply hasFields_MakeDay; [|exact Ht].
  split; [exact Hm'|]. pose proof (daysInMonth_ge_28 m' y). lia.
Qed.

Lemma setDate_fields (d : Date) (y m dt tod dt' : Z) :
  hasFields d y m dt tod -> 1 <= dt' <= daysInMonth m y ->
  hasFields (setDate dt' d) y m dt' tod.
Proof.
  intros H Hd'. destruct (hasFields_valid _ _ _ _ _ H) as [[Hm Hdt] Ht].
  destruct H as (Hy & Hmo & Hda & Hto). unfold setDate.
  unfold getFullYear, getMonth in *. rewrite Hy, Hmo, Hto.
  apply hasFields_MakeDay; [|exact Ht].
  split; assumption.
Qed.

Lemma setDate_timeValue (d : Date) (y m dt tod dt' : Z) :
  hasFields d y m dt tod ->
  setDate dt' d = mkDate (MakeDate (MakeDay y m dt') tod).
Proof.
  intros (Hy & Hmo & Hda & Hto). unfold setDate.
  unfold getFullYear, getMonth in *. rewrite Hy, Hmo, Hto. reflexivity.
Qed.

Lemma setMonth_timeValue (d : Date) (y m dt tod m' : Z) :
  hasFields d y m dt tod ->
  setMonth m' d = mkDate (MakeDate (MakeDay y m' dt) tod).
Proof.
  intros (Hy & Hmo & Hda & Hto). unfold setMonth.
  unfold getFullYear, getDate in *. rewrite Hy, Hda, Hto. reflexivity.
Qed.

(** In Date view, asked on one of the first 28 days of a month about a
    day of the calendar, the instant compared with the range is the day
    before the candidate, at the wall clock's time of day. *)
Lemma referenceDate_date_view (now : Date) (y m dd : Z) :
  getDate now <= 28 -> validDate y m dd ->
  referenceDate now view_date y m dd
  = mkDate (MakeDate (MakeDay y m (dd - 1)) (TimeWithinDay (timeValue now))).
Proof.
  intros Hnow [Hm Hd]. unfold referenceDate. cbn [ViewState_eqb negb].
  pose proof (hasFields_own now) as H0.
  apply (setFullYear_fields _ _ _ _ _ y) in H0; [|exact Hnow].
  apply (setMonth_fields _ _ _ _ _ m) in H0; [|exact Hnow|exact Hm].
  apply (setDate_fields _ _ _ _ _ dd) in H0; [|exact Hd].
  apply (setDate_timeValue _ y m dd). exact H0.
Qed.

(** In Month view, asked on one of the first 28 days of a month about
    January, the instant compared with the range is the 30th of
    December of the year before. *)
Lemma referenceDate_month_view_january (now : Date) (y : Z) :
  getDate now <= 28 ->
  referenceDate now view_month y 0 (daysInMonth 0 y)
  = mkDate (MakeDate (MakeDay (y - 1) 11 30) (TimeWithinDay (timeValue now))).
Proof.
  intros Hnow. unfold referenceDate. cbn [ViewState_eqb negb].
  change (daysInMonth 0 y) with 31. change (0 - 1) with (-1).
  change (31 - 1) with 30.
  pose proof (hasFields_own now) as H0.
  apply (setFullYear_fields _ _ _ _ _ y) in H0; [|exact Hnow].
  apply (setMonth_fields _ _ _ _ _ 0) in H0; [|exact Hnow|lia].
  apply (setDate_fields _ _ _ _ _ 31) in H0; [|cbn; lia].
  rewrite (setMonth_timeValue _ _ _ _ _ (-1) H0).
  assert (E : MakeDay y (-1) 31 = MakeDay (y - 1) 11 31).
  { unfold MakeDay.
    change (-1 / 12) with (-1). change (-1 mod 12) with 11.
    change (11 / 12) with 0. change (11 mod 12) with 11.
    replace (y + -1) with (y - 1 + 0) by lia. reflexivity. }
  rewrite E.
  apply (setDate_timeValue _ (y - 1) 11 31). apply hasFields_MakeDay.
  - split; [lia|]. cbn. lia.
  - destruct (hasFields_valid _ _ _ _ _ H0) as [_ Ht]. exact Ht.
Qed.

(** [new Date(y, m, dt)] of a date of the calendar has the fields it was
    given, but for the years 0 to 99, which give 1900 to 1999. *)
Lemma ofYMD_fields (y m dt : Z) :
  (~ (0 <= y <= 99) -> validDate y m dt -> hasFields (ofYMD y m dt) y m dt 0) /\
  (0 <= y <= 99 -> validDate (1900 + y) m dt ->
   hasFields (ofYMD y m dt) (1900 + y) m dt 0).
Proof.
  unfold ofYMD. split; intros Hy Hv.
  - replace ((0 <=? y) && (y <=? 99)) with false.
    + apply hasFields_MakeDay; [exact Hv|unfold msPerDay; lia].
    + symmetry. apply andb_false_iff.
      rewrite Z.leb_gt, Z.leb_gt. lia.
  - replace ((0 <=? y) && (y <=? 99)) with true.
    + apply hasFields_MakeDay; [exact Hv|unfold msPerDay; lia].
    + symmetry. apply andb_true_iff. rewrite !Z.leb_le. exact Hy.
Qed.

Lemma isValid_dayCell (now : Date) (mn mx : option Date) (y m dd : Z) :
  dd <> 0 ->
  fst (isValid now view_date mn mx (dayCell y m dd))
  = inRange (referenceDate now view_date y m dd) mn mx.
Proof.
  intros Hdd. unfold isValid, dayCell, referenceDate, inRange.
  cbn [DateValidator.month DateValidator.day DateValidator.year
       is_undefined falsy num ViewState_eqb negb].
  destruct (Z.eqb_spec dd 0) as [E|_]; [contradiction|].
  cbn [DateValidator.month DateValidator.day DateValidator.year num].
  destruct mx as [M|], mn as [N|];
    repeat match goal with
           | |- context [if ?b then (_, _) else _] => destruct b
           end; reflexivity.
Qed.

Lemma isValid_monthCell (now : Date) (mn mx : option Date) (y m : Z) :
  fst (isValid now view_month mn mx (monthCell y m))
  = inRange (referenceDate now view_month y m (daysInMonth m y)) mn mx.
Proof.
  unfold isValid, monthCell, referenceDate, inRange.
  cbn [DateValidator.month DateValidator.day DateValidator.year
       DateValidator.set_day is_undefined falsy num ViewState_eqb negb].
  destruct mx as [M|], mn as [N|];
    repeat match goal with
           | |- context [if ?b then (_, _) else _] => destruct b
           end; reflexivity.
Qed.

Lemma MakeDay_pred (y m dt : Z) : MakeDay y m (dt - 1) = MakeDay y m dt - 1.
Proof. unfold MakeDay. lia. Qed.

Lemma ofYMD_timeValue (y m dt : Z) :
  ~ (0 <= y <= 99) -> timeValue (ofYMD y m dt) = MakeDay y m dt * msPerDay.
Proof.
  intros Hy. unfold ofYMD, MakeDate.
  replace ((0 <=? y) && (y <=? 99)) with false; [cbn; lia|].
  symmetry. apply andb_false_iff. rewrite !Z.leb_gt. lia.
Qed.

Lemma MakeDay_within_year (y m dt : Z) :
  validDate y m dt ->
  DayFromYear y <= MakeDay y m dt < DayFromYear (y + 1).
Proof.
  intros [Hm Hd]. rewrite MakeDay_in_range by exact Hm.
  rewrite DayFromYear_succ, isLeapYear_DaysInYear.
  revert Hd. unfold daysInMonth, DaysBeforeMonth.
  month_cases m; destruct (isLeapYear y); cbn [Z.eqb Pos.eqb orb]; lia.
Qed.


(** The two ends of the range of time values are the days the standard
    names: 20 April -271821 and 13 September 275760. *)
Lemma inTimeRange_ends :
  MakeDate (MakeDay (-271821) 3 20) 0 = -8640000000000000 /\
  MakeDate (MakeDay 275760 8 13) 0 = 8640000000000000.
Proof. split; reflexivity. Qed.

(* ================================================================== *)
(** ** CalendarMath                                                    *)
(* ================================================================== *)

(** C9. February has 29 days in a leap year and 28 otherwise, a year being
    leap iff it is divisible by 4 and not by 100, or divisible by 400;
    every other month has a length that does not depend on the year: 31
    days for months 0, 2, 4, 6, 7, 9, 11 and 30 days for months 3, 5, 8,
    10. *)
Theorem daysInMonth_spec :
  (forall y, daysInMonth 1 y = if isLeapYear y then 29 else 28) /\
  (forall y, isLeapYear y = true <->
             ((4 | y) /\ ~ (100 | y)) \/ (400 | y)) /\
  (forall y, daysInMonth 0 y = 31 /\ daysInMonth 2 y = 31 /\
             daysInMonth 4 y = 31 /\ daysInMonth 6 y = 31 /\
             daysInMonth 7 y = 31 /\ daysInMonth 9 y = 31 /\
             daysInMonth 11 y = 31) /\
  (forall y, daysInMonth 3 y = 30 /\ daysInMonth 5 y = 30 /\
             daysInMonth 8 y = 30 /\ daysInMonth 10 y = 30).
Proof.
  split; [reflexivity|]. split; [|split; intros y; repeat split].
  intros y. unfold isLeapYear.
  rewrite orb_true_iff, andb_true_iff, negb_true_iff.
  rewrite <- (rem_zero_iff_divide y 4), <- (rem_zero_iff_divide y 400) by lia.
  rewrite <- (rem_zero_iff_divide y 100) by lia.
  rewrite not_true_iff_false. reflexivity.
Qed.

(* ================================================================== *)
(** ** ValidityEngine                                                  *)
(* ================================================================== *)

(** C3. In Year view a candidate is valid iff no configured [minDate] has
    a later year and no configured [maxDate] has an earlier year; with
    the range of the year 2023, the year 2022 is not valid and the year
    2023 is. *)
Theorem isValid_year_view :
  (forall now mn mx d,
     fst (isValid now view_year mn mx d) = true <->
     match mn with
     | Some m => getFullYear m <= DateValidator.year d | None => True
     end /\
     match mx with
     | Some m => getFullYear m >= DateValidator.year d | None => True
     end) /\
  (forall now,
     fst (isValid now view_year min2023 max2023 (yearCell 2022)) = false /\
     fst (isValid now view_year min2023 max2023 (yearCell 2023)) = true).
Proof.
  split.
  - intros now mn mx d. unfold isValid. cbn [ViewState_eqb negb].
    set (y := DateValidator.year _).
    assert (Hy : y = DateValidator.year d).
    { subst y. destruct (is_undefined _), (falsy _); reflexivity. }
    rewrite <- Hy. clear Hy.
    destruct mn as [mn|], mx as [mx|];
      repeat match goal with
             | |- context [?a <? ?b] => destruct (Z.ltb_spec a b)
             end; cbn [fst]; split; intros; try discriminate; try lia; auto.
  - intros now. split; vm_compute; reflexivity.
Qed.

(** C10. Without [minDate] and without [maxDate] every candidate is valid
    in every view. *)
Theorem isValid_without_range (now : Date) (v : ViewState)
    (d : DateValidator.t) :
  fst (isValid now v None None d) = true.
Proof.
  unfold isValid. destruct (ViewState_eqb v view_year); reflexivity.
Qed.

(** C1 (the code at the failing input). In Date view, with the range of
    the year 2023, the day 2023-01-01 is not valid although it is
    [minDate] itself: the instant compared with the range is the day
    before, 2022-12-31, at the wall clock's time of day.  Asked at
    midnight, the day after [maxDate], 2024-01-01, is valid. *)
Theorem isValid_date_view_rejects_minDate :
  fst (isValid noon view_date min2023 max2023 (dayCell 2023 0 1)) = false /\
  fst (isValid midnight view_date min2023 max2023 (dayCell 2023 0 1)) = false /\
  referenceDate noon view_date 2023 0 1 = ofYMDhm 2022 11 31 12 0 /\
  fst (isValid midnight view_date min2023 max2023 (dayCell 2024 0 1)) = true.
Proof.
  split; [|split; [|split]].
  - rewrite isValid_dayCell by discriminate. reflexivity.
  - rewrite isValid_dayCell by discriminate. reflexivity.
  - vm_compute. reflexivity.
  - rewrite isValid_dayCell by discriminate. reflexivity.
Qed.

(** C2 (the code at the failing input). In Month view, with the range of
    the year 2023, January 2023 (index 0, as the month grid passes it) is
    not valid although each of its days is in the range, and January 2024
    is valid although none of its days is: the instant compared with the
    range is the 30th of the December before.  Were the index 1-based,
    [{month: 1}] being January: with [minDate] 2023-01-28 it is not valid
    although the days 28 to 31 of January are in the range, the instant
    compared being 2023-01-27. *)
Theorem isValid_month_view_january :
  fst (isValid noon view_month min2023 max2023 (monthCell 2023 0)) = false /\
  fst (isValid noon view_month min2023 max2023 (monthCell 2024 0)) = true /\
  referenceDate noon view_month 2023 0 (daysInMonth 0 2023)
    = ofYMDhm 2022 11 30 12 0 /\
  referenceDate noon view_month 2024 0 (daysInMonth 0 2024)
    = ofYMDhm 2023 11 30 12 0 /\
  fst (isValid noon view_month (Some (ofYMD 2023 0 28)) max2023
         (monthCell 2023 1)) = false /\
  referenceDate noon view_month 2023 1 (daysInMonth 1 2023)
    = ofYMDhm 2023 0 27 12 0.
Proof.
  rewrite !isValid_monthCell.
  repeat split; vm_compute; reflexivity.
Qed.

(** X1. In Date view a day of the calendar that is [minDate] itself is
    not valid, whatever [maxDate] is, on any wall clock within the first
    28 days of a month, for every year a [Date] holds in full
    ([dateYear]) outside 0..99: the failure of C1 does not depend on the
    year 2023. *)
Theorem date_view_rejects_minDate (now : Date) (mx : option Date)
    (y m dd : Z) :
  getDate now <= 28 -> dateYear y -> validDate y m dd -> ~ (0 <= y <= 99) ->
  fst (isValid now view_date (Some (ofYMD y m dd)) mx (dayCell y m dd))
  = false.
Proof.
  intros Hnow Hrange Hv Hy.
  rewrite isValid_dayCell by (destruct Hv as [_ Hd]; lia).
  rewrite referenceDate_date_view by assumption.
  unfold inRange. apply andb_false_iff. right.
  apply negb_false_iff. unfold ltb. apply Z.ltb_lt.
  rewrite ofYMD_timeValue by exact Hy. cbn [timeValue].
  rewrite MakeDay_pred. unfold MakeDate.
  pose proof (TimeWithinDay_range (timeValue now)).
  unfold msPerDay in *. lia.
Qed.

(** X2. In Month view January of a year is not valid when [minDate] is a
    day of that January, whatever [maxDate] is, on any wall clock within
    the first 28 days of a month, for every year a [Date] holds in full
    ([dateYear]) outside 0..99: the failure of C2 does not depend on the
    year 2023. *)
Theorem month_view_rejects_january (now : Date) (mx : option Date)
    (y dmin : Z) :
  getDate now <= 28 -> dateYear y -> 1 <= dmin <= 31 -> ~ (0 <= y <= 99) ->
  fst (isValid now view_month (Some (ofYMD y 0 dmin)) mx (monthCell y 0))
  = false.
Proof.
  intros Hnow Hrange Hd Hy.
  rewrite isValid_monthCell.
  rewrite referenceDate_month_view_january by assumption.
  unfold inRange. apply andb_false_iff. right.
  apply negb_false_iff. unfold ltb. apply Z.ltb_lt.
  rewrite ofYMD_timeValue by exact Hy. cbn [timeValue].
  rewrite !MakeDay_in_range by lia.
  unfold DaysBeforeMonth. cbn [Z.eqb Pos.eqb].
  pose proof (DayFromYear_succ (y - 1)) as S.
  replace (y - 1 + 1) with y in S by lia.
  rewrite isLeapYear_DaysInYear in S.
  unfold MakeDate.
  pose proof (TimeWithinDay_range (timeValue now)) as T.
  unfold msPerDay in *. revert S.
  destruct (isLeapYear (y - 1)); intros S; lia.
Qed.

Lemma date_view_rejects_minDate_witness :
  fst (isValid noon view_date (Some (ofYMD 2024 1 29)) None
         (dayCell 2024 1 29)) = false.
Proof.
  apply (date_view_rejects_minDate noon None 2024 1 29).
  - vm_compute. discriminate.
  - unfold dateYear. lia.
  - unfold validDate. vm_compute. repeat split; discriminate.
  - lia.
Defined.

Lemma month_view_rejects_january_witness :
  fst (isValid noon view_month (Some (ofYMD 2023 0 31)) None
         (monthCell 2023 0)) = false.
Proof.
  apply (month_view_rejects_january noon None 2023 31).
  - vm_compute. discriminate.
  - unfold dateYear. lia.
  - lia.
  - lia.
Defined.

(** C4 (as stated, refuted). A call may write the candidate: in Year view
    [{year: 2023}] comes back as [{day: 30, month: 12, year: 2023}]. And
    the result may depend on the wall clock: with [maxDate] 2023-12-31,
    the day 2024-01-01 is not valid when asked at noon and valid when
    asked at midnight; with [maxDate] 2023-02-28, the day 2023-02-10 is
    valid when asked on 15 June and not valid when asked on 31 January,
    where [setMonth(1)] runs over into March. *)
Lemma isValid_not_pure :
  snd (isValid noon view_year None None (yearCell 2023)) <> yearCell 2023 /\
  fst (isValid noon view_date None max2023 (dayCell 2024 0 1))
    <> fst (isValid midnight view_date None max2023 (dayCell 2024 0 1)) /\
  fst (isValid noon view_date None (Some (ofYMD 2023 1 28))
         (dayCell 2023 1 10))
    <> fst (isValid endOfJanuary view_date None (Some (ofYMD 2023 1 28))
              (dayCell 2023 1 10)).
Proof. repeat split; vm_compute; discriminate. Qed.

(** C4 (amended). The only effect of [isValid] on its argument is to fill
    in what the candidate lacks: [year] is never written, [month] becomes
    12 when it is absent, [day] becomes [daysInMonth(month, year)] when it
    is absent or 0, and a candidate that has a month and a day other than
    0 is left as it was.  In Year view the result does not depend on the
    wall clock. *)
Theorem isValid_candidate_effects (now : Date) (v : ViewState)
    (mn mx : option Date) (d : DateValidator.t) :
  let d' := snd (isValid now v mn mx d) in
  let m := match DateValidator.month d with Some m => m | None => 12 end in
  DateValidator.year d' = DateValidator.year d /\
  DateValidator.month d' = Some m /\
  DateValidator.day d'
    = (if falsy (DateValidator.day d)
       then Some (daysInMonth m (DateValidator.year d))
       else DateValidator.day d) /\
  (forall y mo x, x <> 0 ->
     snd (isValid now v mn mx (dayCell y mo x)) = dayCell y mo x) /\
  (forall now',
     fst (isValid now view_year mn mx d)
       = fst (isValid now' view_year mn mx d)).
Proof.
  assert (Hsnd : forall now v mn mx d,
    snd (isValid now v mn mx d)
    = let d1 := if is_undefined (DateValidator.month d)
                then DateValidator.set_month 12 d else d in
      if falsy (DateValidator.day d1)
      then DateValidator.set_day
             (daysInMonth (num (DateValidator.month d1))
                          (DateValidator.year d1)) d1
      else d1).
  { clear. intros now v mn mx d. unfold isValid.
    repeat match goal with
           | |- context [if ?b then (_, _) else _] => destruct b
           end; reflexivity. }
  cbv zeta. rewrite Hsnd. split; [|split; [|split; [|split]]].
  - destruct d as [[x|] [mo|] y]; cbn; try destruct (x =? 0); reflexivity.
  - destruct d as [[x|] [mo|] y]; cbn; try destruct (x =? 0); reflexivity.
  - destruct d as [[x|] [mo|] y]; cbn; try destruct (x =? 0); reflexivity.
  - intros y mo x Hx. rewrite Hsnd. cbn.
    destruct (Z.eqb_spec x 0); [contradiction|reflexivity].
  - intros now'. unfold isValid. cbn [ViewState_eqb negb]. reflexivity.
Qed.

Lemma isValid_candidate_effects_witness :
  snd (isValid noon view_date min2023 max2023 (dayCell 2023 5 15))
    = dayCell 2023 5 15.
Proof.
  apply (isValid_candidate_effects noon view_date min2023 max2023
           (yearCell 2023)).
  lia.
Defined.

(* ================================================================== *)
(** ** ViewStateMachine, SelectionController, VisibilityController     *)
(* ================================================================== *)

Lemma reachable_run (config : DatepickerConfig) (es : list Event) :
  forall s, reachable s -> reachable (run config es s).
Proof.
  induction es as [|e es IH]; intros s Hs; cbn.
  - exact Hs.
  - apply IH. apply reachable_step. exact Hs.
Qed.

(** An event that leaves [isVisible] alone runs no effect. *)
Lemma effect_same_visibility (config : DatepickerConfig) (s s' : HookState) :
  isVisible s' = isVisible s -> effect config s s' = s'.
Proof.
  intros H. unfold effect. rewrite H, Bool.eqb_reflx. reflexivity.
Qed.

(** X3. In every reachable state the [mousedown] listener is registered
    exactly when the popup is visible. *)
Theorem listening_iff_visible (s : HookState) :
  reachable s -> listening s = isVisible s.
Proof.
  induction 1 as [config|config e s Hs IH].
  - reflexivity.
  - unfold step, dispatch. destruct (handler e s) as [s' calls] eqn:E.
    cbn [fst]. unfold effect.
    destruct (Bool.eqb (isVisible s) (isVisible s')) eqn:Ev.
    + apply Bool.eqb_prop in Ev. rewrite <- Ev, <- IH.
      destruct e; cbn in E;
        try (injection E as <- _; reflexivity).
      destruct (listening s && (refCurrent && negb contains)) eqn:El;
        injection E as <- _; [|reflexivity].
      cbn in Ev. rewrite IH in El. rewrite Ev in El. discriminate.
    + cbn. destruct (isVisible s') eqn:Ev'; cbn; rewrite ?Ev'; reflexivity.
Qed.

Lemma listening_iff_visible_witness :
  listening (run config2023 [ShowCalendar; NextMonth]
                 (initialState config2023))
  = isVisible (run config2023 [ShowCalendar; NextMonth]
                   (initialState config2023)).
Proof.
  apply listening_iff_visible.
  apply reachable_run, reachable_init.
Defined.

(** X4. Whatever event makes a hidden popup visible, the anchor after it
    is the month and year of the configured date. *)
Theorem opening_resets_anchor (config : DatepickerConfig) (e : Event)
    (s : HookState) :
  isVisible s = false -> isVisible (step config e s) = true ->
  monthYear (step config e s)
    = MonthYear.mk (getMonth (date config)) (getFullYear (date config)).
Proof.
  unfold step, dispatch. destruct (handler e s) as [s' calls]. cbn [fst].
  unfold effect. intros Hs.
  destruct (Bool.eqb (isVisible s) (isVisible s')) eqn:Ev.
  - apply Bool.eqb_prop in Ev. congruence.
  - cbn. destruct (isVisible s') eqn:Ev'; cbn; rewrite ?Ev'; intros H;
      [reflexivity|discriminate H].
Qed.

Lemma opening_resets_anchor_witness :
  monthYear (step config2023 ToggleCalendar
               (run config2023 [ShowCalendar; NextYear; MouseDown true false]
                    (initialState config2023)))
  = MonthYear.mk (getMonth (date config2023)) (getFullYear (date config2023)).
Proof.
  apply opening_resets_anchor; reflexivity.
Defined.

(** C5 (the code at the failing input). A popup opened, switched to Month
    view and closed by [toggleCalendar] (the button activated from the
    keyboard, without a [mousedown]) is hidden with the view still Month;
    closed by a call of [selectDate] in Year view it is hidden with the
    view still Year.  Only the [mousedown] listener resets the view. *)
Theorem closed_popup_keeps_view :
  let s1 := run config2023 [ShowCalendar; ViewMonths; ToggleCalendar]
                (initialState config2023) in
  let s2 := run config2023 [ShowCalendar; ViewYears; SelectDate 5]
                (initialState config2023) in
  let s3 := run config2023 [ShowCalendar; ViewMonths; MouseDown true false]
                (initialState config2023) in
  (reachable s1 /\ isVisible s1 = false /\ view s1 = view_month) /\
  (reachable s2 /\ isVisible s2 = false /\ view s2 = view_year) /\
  (reachable s3 /\ isVisible s3 = false /\ view s3 = view_date).
Proof.
  cbv zeta.
  repeat split; try (apply reachable_run, reachable_init); reflexivity.
Qed.

(** C8 (the code at the failing input). The popup of C5, closed by
    [toggleCalendar] in Month view, opens again in Month view, by
    [showCalendar] as by [toggleCalendar]; the anchor is the month and
    year of the configured date. *)
Theorem reopened_popup_keeps_view :
  let closed := run config2023 [ShowCalendar; ViewMonths; ToggleCalendar]
                    (initialState config2023) in
  isVisible closed = false /\
  (forall e, e = ShowCalendar \/ e = ToggleCalendar ->
     isVisible (step config2023 e closed) = true /\
     view (step config2023 e closed) = view_month /\
     monthYear (step config2023 e closed) = MonthYear.mk 2 2023).
Proof.
  cbv zeta. split; [reflexivity|].
  intros e [-> | ->]; repeat split; vm_compute; reflexivity.
Qed.

(** C6. Every event keeps the anchor's month within 0..11, [selectMonth]
    when it is given a month within 0..11; [nextMonth] from December
    gives January of the next year and [prevMonth] from January gives
    December of the year before. *)
Theorem month_stays_in_range :
  (forall config e s,
     monthInRange s -> monthArgument e -> monthInRange (step config e s)) /\
  (forall config s y,
     monthYear s = MonthYear.mk 11 y ->
     monthYear (step config NextMonth s) = MonthYear.mk 0 (y + 1)) /\
  (forall config s y,
     monthYear s = MonthYear.mk 0 y ->
     monthYear (step config PrevMonth s) = MonthYear.mk 11 (y - 1)).
Proof.
  split; [|split].
  - intros config e s Hs He. unfold step, dispatch.
    destruct (handler e s) as [s' calls] eqn:E. cbn [fst].
    assert (Hs' : monthInRange s').
    { unfold monthInRange in *.
      destruct e; cbn in E, He;
        try (injection E as <- _; cbn; lia).
      - injection E as <- _. cbn.
        destruct (11 <=? MonthYear.month (monthYear s)) eqn:C; cbn;
          rewrite ?Z.leb_le, ?Z.leb_gt in C; lia.
      - injection E as <- _. cbn.
        destruct (MonthYear.month (monthYear s) <=? 0) eqn:C; cbn;
          rewrite ?Z.leb_le, ?Z.leb_gt in C; lia.
      - destruct (listening s && (refCurrent && negb contains));
          injection E as <- _; cbn; lia. }
    unfold effect.
    destruct (Bool.eqb (isVisible s) (isVisible s')); [exact Hs'|].
    cbn. destruct (isVisible s'); [|exact Hs'].
    unfold monthInRange. cbn. apply MonthFromTime_range.
  - intros config s y H. unfold step, dispatch. cbn.
    rewrite effect_same_visibility by reflexivity. cbn. rewrite H. reflexivity.
  - intros config s y H. unfold step, dispatch. cbn.
    rewrite effect_same_visibility by reflexivity. cbn. rewrite H. reflexivity.
Qed.

Lemma month_stays_in_range_witness :
  monthInRange (step config2023 NextMonth
                  (mkState (MonthYear.mk 11 2023) view_date true true)) /\
  monthInRange (step config2023 ShowCalendar (initialState config2023)) /\
  monthYear (step config2023 PrevMonth
               (mkState (MonthYear.mk 0 2023) view_date true true))
    = MonthYear.mk 11 (2023 - 1).
Proof.
  split; [|split].
  - apply (proj1 month_stays_in_range); [unfold monthInRange; cbn; lia|exact I].
  - apply (proj1 month_stays_in_range);
      [unfold monthInRange; vm_compute; split; discriminate|exact I].
  - apply (proj2 (proj2 month_stays_in_range)). reflexivity.
Defined.

(** X5. Navigation forth and back returns to the state it started from,
    when the month is within 0..11 and the year is a safe integer with
    twelve years to spare on either side (so that no step rounds):
    [nextMonth] and [prevMonth], [nextYear] and [prevYear], [nextDecade]
    and [prevDecade], in either order. *)
Theorem navigation_round_trip (c1 c2 : DatepickerConfig) (s : HookState) :
  monthInRange s ->
  safeInteger (MonthYear.year (monthYear s) - 12) ->
  safeInteger (MonthYear.year (monthYear s) + 12) ->
  step c2 PrevMonth (step c1 NextMonth s) = s /\
  step c2 NextMonth (step c1 PrevMonth s) = s /\
  step c2 PrevYear (step c1 NextYear s) = s /\
  step c2 NextYear (step c1 PrevYear s) = s /\
  step c2 PrevDecade (step c1 NextDecade s) = s /\
  step c2 NextDecade (step c1 PrevDecade s) = s.
Proof.
  unfold monthInRange. intros Hm _ _.
  destruct s as [[mo yr] v vis lis]. cbn in Hm.
  unfold step, dispatch. cbn [handler fst].
  rewrite !effect_same_visibility by reflexivity.
  unfold setMonthYear. cbn [monthYear view isVisible listening
                            MonthYear.month MonthYear.year].
  repeat split.
  - destruct (Z.leb_spec 11 mo); cbn [MonthYear.month MonthYear.year].
    + replace mo with 11 by lia. cbn. do 2 f_equal. lia.
    + destruct (Z.leb_spec (mo + 1) 0); [lia|].
      cbn. do 2 f_equal; lia.
  - destruct (Z.leb_spec mo 0); cbn [MonthYear.month MonthYear.year].
    + replace mo with 0 by lia. cbn. do 2 f_equal. lia.
    + destruct (Z.leb_spec 11 (mo - 1)); [lia|].
      cbn. do 2 f_equal; lia.
  - do 2 f_equal. lia.
  - do 2 f_equal. lia.
  - do 2 f_equal. lia.
  - do 2 f_equal. lia.
Qed.

Lemma navigation_round_trip_witness :
  step config2023 PrevMonth
    (step config2023 NextMonth
       (mkState (MonthYear.mk 11 2023) view_date true true))
  = mkState (MonthYear.mk 11 2023) view_date true true.
Proof.
  apply (navigation_round_trip config2023 config2023
           (mkState (MonthYear.mk 11 2023) view_date true true)).
  - unfold monthInRange. cbn. lia.
  - unfold safeInteger. cbn. lia.
  - unfold safeInteger. cbn. lia.
Defined.






(* ================================================================== *)
(** ** The widget                                                      *)
(* ================================================================== *)

Lemma zrange_length (lo hi : Z) :
  List.length (zrange lo hi) = Z.to_nat (hi - lo).
Proof. unfold zrange. rewrite length_map, length_seq. reflexivity. Qed.

Lemma In_zrange (lo hi i : Z) : In i (zrange lo hi) <-> lo <= i < hi.
Proof.
  unfold zrange. rewrite in_map_iff. split.
  - intros (k & <- & Hk). apply in_seq in Hk. lia.
  - intros H. exists (Z.to_nat (i - lo)). split; [lia|].
    apply in_seq. lia.
Qed.

Lemma nth_error_zrange (lo hi k : Z) :
  0 <= k < hi - lo ->
  nth_error (zrange lo hi) (Z.to_nat k) = Some (lo + k).
Proof.
  intros H. unfold zrange.
  rewrite nth_error_map, nth_error_seq.
  destruct (Nat.ltb_spec (Z.to_nat k) (Z.to_nat (hi - lo))) as [_|C]; [|lia].
  cbn. f_equal. lia.
Qed.

Lemma WeekDay_range (t : Z) : 0 <= WeekDay t <= 6.
Proof. unfold WeekDay. pose proof (Z.mod_pos_bound (Day t + 4) 7). lia. Qed.

Lemma Day_ofYMD_offset (y m i : Z) :
  Day (timeValue (ofYMD y m i)) = Day (timeValue (ofYMD y m 1)) + i - 1.
Proof.
  unfold ofYMD. cbn [timeValue].
  rewrite !Day_MakeDate by (unfold msPerDay; lia).
  unfold MakeDay. lia.
Qed.

(** X7. For an anchor month within 0..11 and an anchor year a [Date]
    holds in full ([dateYear]), the day grid is the empty cells before
    the first of the month, as many as its week day (0 to 6), then one
    button for each day 1 to [daysInMonth], in order: at most 37 cells.
    Laid out seven to a row, the button of day [i] is in the column of
    the week day of [new Date(year, month, i)]. *)
Theorem day_grid_layout (clock : Z -> Date) (config : DatepickerConfig)
    (s : HookState) :
  monthInRange s -> dateYear (MonthYear.year (monthYear s)) ->
  let m := MonthYear.month (monthYear s) in
  let y := MonthYear.year (monthYear s) in
  let b := beginningDayOfWeek m y in
  let grid := cells (DateSelection clock config s) in
  0 <= b <= 6 /\
  Z.of_nat (List.length grid) = b + daysInMonth m y /\
  (List.length grid <= 37)%nat /\
  (forall k, 0 <= k < b -> nth_error grid (Z.to_nat k) = Some EmptyCell) /\
  (forall i, 1 <= i <= daysInMonth m y ->
     (exists btn, nth_error grid (Z.to_nat (b + i - 1)) = Some (ButtonCell btn)
                  /\ label btn = Num i) /\
     (b + i - 1) mod 7 = getDay (ofYMD y m i)).
Proof.
  intros _ _. cbv zeta.
  set (m := MonthYear.month (monthYear s)).
  set (y := MonthYear.year (monthYear s)).
  set (b := beginningDayOfWeek m y).
  assert (Hb : 0 <= b <= 6) by apply WeekDay_range.
  pose proof (daysInMonth_ge_28 m y) as Hd.
  assert (Hd' : daysInMonth m y <= 31).
  { unfold daysInMonth.
    repeat match goal with
           | |- context [if ?c then _ else _] => destruct c
           end; lia. }
  unfold DateSelection. cbn [cells]. fold m y b.
  set (emptyBefore := map (fun _ => EmptyCell) (zrange 0 b)).
  set (days := map _ (zrange 1 (daysInMonth m y + 1))).
  assert (Le : List.length emptyBefore = Z.to_nat b).
  { subst emptyBefore. rewrite length_map, zrange_length. f_equal. lia. }
  assert (Ld : List.length days = Z.to_nat (daysInMonth m y)).
  { subst days. rewrite length_map, zrange_length. f_equal. lia. }
  split; [exact Hb|]. split; [rewrite length_app; lia|].
  split; [rewrite length_app; lia|]. split.
  - intros k Hk. rewrite nth_error_app1 by lia.
    subst emptyBefore. rewrite nth_error_map, nth_error_zrange by lia.
    reflexivity.
  - intros i Hi. split.
    + rewrite nth_error_app2 by lia.
      replace (Z.to_nat (b + i - 1) - List.length emptyBefore)%nat
        with (Z.to_nat (i - 1)) by lia.
      subst days. rewrite nth_error_map, nth_error_zrange by lia.
      replace (1 + (i - 1)) with i by lia. cbn [option_map].
      destruct (ctx_isValid _ _ _ _ _); eexists; split; reflexivity.
    + subst b. unfold beginningDayOfWeek, getDay, WeekDay.
      rewrite (Day_ofYMD_offset y m i).
      Z.div_mod_to_equations. lia.
Qed.

Lemma day_grid_layout_witness :
  (2 + 29 - 1) mod 7 = getDay (ofYMD 2028 1 29).
Proof.
  apply (day_grid_layout (fun _ => noon) config2023
           (mkState (MonthYear.mk 1 2028) view_date true true)).
  - unfold monthInRange. cbn. lia.
  - unfold dateYear. cbn. lia.
  - vm_compute. split; discriminate.
Defined.

Lemma isSelected_date_view (config : DatepickerConfig) (s : HookState)
    (d : Z) :
  view s = view_date ->
  isSelected config s d
  = (d =? getDate (date config))
    && (MonthYear.month (monthYear s) =? getMonth (date config))
    && (MonthYear.year (monthYear s) =? getFullYear (date config)).
Proof. intros H. unfold isSelected. rewrite H. reflexivity. Qed.

Lemma isSelected_month_view (config : DatepickerConfig) (s : HookState)
    (d : Z) :
  view s = view_month ->
  isSelected config s d
  = (d =? getMonth (date config))
    && (MonthYear.year (monthYear s) =? getFullYear (date config)).
Proof. intros H. unfold isSelected. rewrite H. reflexivity. Qed.

Lemma isSelected_year_view (config : DatepickerConfig) (s : HookState)
    (d : Z) :
  view s = view_year ->
  isSelected config s d = (d =? getFullYear (date config)).
Proof. intros H. unfold isSelected. rewrite H. reflexivity. Qed.

Lemma nth_error_mapi_from {A B : Type} (f : A -> Z -> B) (a : list A) :
  forall (index : Z) (n : nat),
    nth_error (mapi_from f index a) n
    = option_map (fun x => f x (index + Z.of_nat n)) (nth_error a n).
Proof.
  induction a as [|x a IH]; intros index [|n];
    cbn [mapi_from nth_error option_map].
  - reflexivity.
  - reflexivity.
  - f_equal. f_equal. lia.
  - rewrite IH. destruct (nth_error a n); cbn; [|reflexivity].
    f_equal. f_equal. lia.
Qed.

Lemma In_mapi {A B : Type} (f : A -> Z -> B) (a : list A) (y : B) :
  In y (mapi f a) ->
  exists k x, 0 <= k < Z.of_nat (List.length a) /\
              nth_error a (Z.to_nat k) = Some x /\ y = f x k.
Proof.
  intros H. apply In_nth_error in H. destruct H as [n Hn].
  unfold mapi in Hn. rewrite nth_error_mapi_from in Hn.
  destruct (nth_error a n) as [x|] eqn:Ha; [|discriminate].
  injection Hn as <-. exists (Z.of_nat n), x.
  assert (Hlen : nth_error a n <> None) by congruence.
  apply nth_error_Some in Hlen.
  rewrite Nat2Z.id. repeat split; try lia; assumption.
Qed.

(** The cells of the three grids, one by one. *)
Lemma In_day_cells (clock : Z -> Date) (config : DatepickerConfig)
    (s : HookState) (b : Button) :
  In (ButtonCell b) (cells (DateSelection clock config s)) ->
  exists i,
    1 <= i <= daysInMonth (MonthYear.month (monthYear s))
                          (MonthYear.year (monthYear s)) /\
    b = if ctx_isValid clock config s
             (DateValidator.mk (Some i) (Some (MonthYear.month (monthYear s)))
                               (MonthYear.year (monthYear s))) i
        then mkButton (Num i) (isSelected config s i) false
                      (Some (SelectDate i))
        else mkButton (Num i) false true None.
Proof.
  unfold DateSelection. cbn [cells]. rewrite in_app_iff, !in_map_iff.
  intros [(k & Hk & _)|(i & Hi & Hin)]; [discriminate|].
  apply In_zrange in Hin. exists i. split; [lia|].
  destruct (ctx_isValid _ _ _ _ _); congruence.
Qed.

Lemma In_month_cells (clock : Z -> Date) (config : DatepickerConfig)
    (s : HookState) (b : Button) :
  In (ButtonCell b) (cells (MonthSelection clock config s)) ->
  exists index month,
    0 <= index <= 11 /\
    nth_error monthNames (Z.to_nat index) = Some month /\
    b = if ctx_isValid clock config s
             (DateValidator.mk None (Some index)
                               (MonthYear.year (monthYear s))) index
        then CalButton None (isSelected config s index) false
               (Some (SelectMonth index)) (Text (String.substring 0 3 month))
        else CalButton None false true None
               (Text (String.substring 0 3 month)).
Proof.
  unfold MonthSelection. cbn [cells]. intros H.
  apply In_mapi in H. destruct H as (k & month & Hk & Hn & Hb).
  exists k, month. change (Z.of_nat (List.length monthNames)) with 12 in Hk.
  split; [lia|]. split; [exact Hn|].
  destruct (ctx_isValid _ _ _ _ _); congruence.
Qed.

Lemma In_year_cells (clock : Z -> Date) (config : DatepickerConfig)
    (s : HookState) (b : Button) :
  In (ButtonCell b) (cells (YearSelection clock config s)) ->
  exists i,
    MonthYear.year (monthYear s) - 6 <= i < MonthYear.year (monthYear s) + 6 /\
    b = if ctx_isValid clock config s (DateValidator.mk None None i) i
        then CalButton None (isSelected config s i) false
               (Some (SelectYear i)) (Num i)
        else CalButton None false true None (Num i).
Proof.
  unfold YearSelection. cbn [cells]. rewrite in_map_iff.
  intros (i & Hi & Hin). apply In_zrange in Hin. exists i. split; [lia|].
  destruct (ctx_isValid _ _ _ _ _); congruence.
Qed.

(** X8. A highlighted cell is the cell of the configured date: in the day
    grid it is the button of the date's day, the anchor being the
    date's month and year; in the month grid the button of the date's
    month, the anchor's year being the date's; in the year grid the button
    of the date's year.  A cell [isValid] rejects is never highlighted. *)
Theorem highlighted_cell_is_selected_date (clock : Z -> Date)
    (config : DatepickerConfig) (s : HookState) (b : Button) :
  In (ButtonCell b) (cells (Calendar clock config s)) ->
  highlighted b = true ->
  greyed b = false /\
  match view s with
  | view_date =>
      onClick b = Some (SelectDate (getDate (date config))) /\
      monthYear s = MonthYear.mk (getMonth (date config))
                                 (getFullYear (date config))
  | view_month =>
      onClick b = Some (SelectMonth (getMonth (date config))) /\
      MonthYear.year (monthYear s) = getFullYear (date config)
  | view_year =>
      onClick b = Some (SelectYear (getFullYear (date config)))
  end.
Proof.
  unfold Calendar. destruct (view s) eqn:Hv; intros Hin Hh.
  - apply In_day_cells in Hin. destruct Hin as (i & Hi & ->).
    destruct (ctx_isValid _ _ _ _ _); [|discriminate].
    cbn in *. rewrite isSelected_date_view in Hh by exact Hv.
    apply andb_true_iff in Hh. destruct Hh as [Hh Hy].
    apply andb_true_iff in Hh. destruct Hh as [Hd Hm].
    apply Z.eqb_eq in Hd, Hm, Hy. subst i.
    repeat split. destruct (monthYear s) as [mo yr]. cbn in *. congruence.
  - apply In_month_cells in Hin. destruct Hin as (i & month & Hi & _ & ->).
    destruct (ctx_isValid _ _ _ _ _); [|discriminate].
    cbn in *. rewrite isSelected_month_view in Hh by exact Hv.
    apply andb_true_iff in Hh. destruct Hh as [Hm Hy].
    apply Z.eqb_eq in Hm, Hy. subst i. repeat split. exact Hy.
  - apply In_year_cells in Hin. destruct Hin as (i & Hi & ->).
    destruct (ctx_isValid _ _ _ _ _); [|discriminate].
    cbn in *. rewrite isSelected_year_view in Hh by exact Hv.
    apply Z.eqb_eq in Hh. subst i. repeat split.
Qed.

Lemma highlighted_cell_is_selected_date_witness :
  greyed (mkButton (Num 10) true false (Some (SelectDate 10))) = false /\
  onClick (mkButton (Num 10) true false (Some (SelectDate 10)))
    = Some (SelectDate (getDate (date config2023))) /\
  monthYear (mkState (MonthYear.mk 2 2023) view_date true true)
    = MonthYear.mk (getMonth (date config2023)) (getFullYear (date config2023)).
Proof.
  refine (highlighted_cell_is_selected_date (fun _ => noon) config2023
            (mkState (MonthYear.mk 2 2023) view_date true true)
            (mkButton (Num 10) true false (Some (SelectDate 10)))
            _ eq_refl).
  vm_compute. auto 20.
Defined.



(** Each event keeps the month of the anchor within 0..11. *)
Lemma handler_monthInRange (e : Event) (s : HookState) :
  monthInRange s -> monthArgument e -> monthInRange (fst (handler e s)).
Proof.
  unfold monthInRange. intros Hs He.
  destruct e; cbn in *; try lia.
  - destruct (Z.leb_spec 11 (MonthYear.month (monthYear s))); cbn; lia.
  - destruct (Z.leb_spec (MonthYear.month (monthYear s)) 0); cbn; lia.
  - destruct (listening s && (refCurrent && negb contains)); cbn; lia.
Qed.

Lemma effect_monthInRange (config : DatepickerConfig) (s s' : HookState) :
  monthInRange s' -> monthInRange (effect config s s').
Proof.
  intros H. unfold effect.
  destruct (Bool.eqb (isVisible s) (isVisible s')); [exact H|].
  cbn. destruct (isVisible s'); [|exact H].
  unfold monthInRange. cbn. apply MonthFromTime_range.
Qed.

Lemma step_monthInRange (config : DatepickerConfig) (e : Event)
    (s : HookState) :
  monthInRange s -> monthArgument e -> monthInRange (step config e s).
Proof.
  intros Hs He. unfold step, dispatch.
  pose proof (handler_monthInRange e s Hs He) as H.
  destruct (handler e s) as [s' calls]. cbn [fst] in *.
  apply effect_monthInRange. exact H.
Qed.

(** The calls wired to the cells of a grid are the [onClick] of its
    buttons. *)
Lemma In_cellClicks (cs : list Cell) (e : Event) :
  In e (cellClicks cs) <->
  exists b, In (ButtonCell b) cs /\ onClick b = Some e.
Proof.
  unfold cellClicks. rewrite in_flat_map. split.
  - intros ([|b] & Hin & He); [contradiction|].
    exists b. split; [exact Hin|].
    destruct (onClick b) as [e'|]; [|contradiction].
    destruct He as [->|[]]. reflexivity.
  - intros (b & Hin & He). exists (ButtonCell b). split; [exact Hin|].
    rewrite He. left. reflexivity.
Qed.

(** What the widget can call, by the state it renders: the two controls
    around the popup; and when the popup is visible the navigation of the
    view and the cells [isValid] accepted. *)
Lemma handlers_inversion (clock : Z -> Date) (config : DatepickerConfig)
    (s : HookState) (e : Event) :
  In e (handlers (RawDatePicker clock config s)) ->
  e = ShowCalendar \/ e = ToggleCalendar \/
  (isVisible s = true /\
   match view s with
   | view_date =>
       e = PrevMonth \/ e = ViewMonths \/ e = ViewYears \/ e = NextMonth \/
       exists i, e = SelectDate i /\
         1 <= i <= daysInMonth (MonthYear.month (monthYear s))
                               (MonthYear.year (monthYear s)) /\
         ctx_isValid clock config s
           (DateValidator.mk (Some i) (Some (MonthYear.month (monthYear s)))
                             (MonthYear.year (monthYear s))) i = true
   | view_month =>
       e = PrevYear \/ e = ViewYears \/ e = NextYear \/
       exists index, e = SelectMonth index /\ 0 <= index <= 11 /\
         ctx_isValid clock config s
           (DateValidator.mk None (Some index)
                             (MonthYear.year (monthYear s))) index = true
   | view_year =>
       e = PrevDecade \/ e = NextDecade \/
       exists i, e = SelectYear i /\
         MonthYear.year (monthYear s) - 6 <= i
           < MonthYear.year (monthYear s) + 6 /\
         ctx_isValid clock config s (DateValidator.mk None None i) i = true
   end).
Proof.
  unfold handlers, RawDatePicker.
  cbn [inputOnFocus toggleButton popup buttonClicks flat_map onClick app].
  intros [<-|[<-|H]]; [left; reflexivity|right; left; reflexivity|].
  right. right. destruct (isVisible s); [|contradiction].
  split; [reflexivity|]. apply in_app_iff in H.
  unfold Calendar in H. destruct (view s).
  - destruct H as [H|H].
    + cbn in H. intuition auto.
    + apply In_cellClicks in H. destruct H as (b & Hin & He).
      apply In_day_cells in Hin. destruct Hin as (i & Hi & ->).
      destruct (ctx_isValid _ _ _ _ _) eqn:E; [|discriminate].
      injection He as <-. do 4 right. exists i. auto.
  - destruct H as [H|H].
    + cbn in H. intuition auto.
    + apply In_cellClicks in H. destruct H as (b & Hin & He).
      apply In_month_cells in Hin. destruct Hin as (i & month & Hi & _ & ->).
      destruct (ctx_isValid _ _ _ _ _) eqn:E; [|discriminate].
      injection He as <-. do 3 right. exists i. auto.
  - destruct H as [H|H].
    + cbn in H. intuition auto.
    + apply In_cellClicks in H. destruct H as (b & Hin & He).
      apply In_year_cells in Hin. destruct Hin as (i & Hi & ->).
      destruct (ctx_isValid _ _ _ _ _) eqn:E; [|discriminate].
      injection He as <-. do 2 right. exists i. auto.
Qed.

Lemma handlers_monthArgument (clock : Z -> Date) (config : DatepickerConfig)
    (s : HookState) (e : Event) :
  In e (handlers (RawDatePicker clock config s)) -> monthArgument e.
Proof.
  intros H. apply handlers_inversion in H.
  destruct H as [->|[->|[_ H]]]; try exact I.
  destruct (view s).
  - destruct H as [->|[->|[->|[->|(i & -> & _)]]]]; exact I.
  - destruct H as [->|[->|[->|(i & -> & Hi & _)]]]; try exact I. exact Hi.
  - destruct H as [->|[->|(i & -> & _)]]; exact I.
Qed.

Lemma widgetReachable_monthInRange (s : HookState) :
  widgetReachable s -> monthInRange s.
Proof.
  induction 1 as [config|clock config config' e s Hs IH He
                 |config refCurrent contains s Hs IH].
  - unfold monthInRange. cbn. apply MonthFromTime_range.
  - apply step_monthInRange; [exact IH|].
    eapply handlers_monthArgument. exact He.
  - apply step_monthInRange; [exact IH|exact I].
Qed.

(** X10. In every state the widget can reach, the month of the anchor is
    within 0..11, so the month button of the day grid always has a name
    to show. *)
Theorem widget_month_in_range (s : HookState) :
  widgetReachable s ->
  monthInRange s /\
  forall clock config,
    exists name,
      In name monthNames /\
      nth_error (header (DateSelection clock config s)) 1
      = Some (mkButton (Text name) false false (Some ViewMonths)).
Proof.
  intros H. apply widgetReachable_monthInRange in H. rename H into Hm.
  split; [exact Hm|]. intros clock config.
  unfold monthInRange in Hm. unfold DateSelection. cbn [header nth_error].
  destruct (lookup monthNames (MonthYear.month (monthYear s))) as [name|] eqn:E.
  - exists name. split; [|reflexivity].
    unfold lookup in E. destruct (_ <? 0); [discriminate|].
    eapply nth_error_In. exact E.
  - exfalso. unfold lookup in E.
    destruct (Z.ltb_spec (MonthYear.month (monthYear s)) 0); [lia|].
    apply nth_error_None in E. cbn in E. lia.
Qed.

Lemma widget_month_in_range_witness :
  monthInRange
    (step config2023 (SelectMonth 11)
       (run config2023 [ShowCalendar; ViewMonths] (initialState config2023))).
Proof.
  apply widget_month_in_range.
  apply (widget_event (fun _ => noon) config2023 config2023).
  - apply (widget_event (fun _ => noon) config2023 config2023 ViewMonths).
    + apply (widget_event (fun _ => noon) config2023 config2023 ShowCalendar).
      * apply widget_init.
      * vm_compute. auto.
    + vm_compute. auto.
  - vm_compute. auto 20.
Defined.

(** X11. The widget calls [selectDate(d)] only from the day grid of a
    visible popup in Date view, for a day [d] of the anchor's month that
    [isValid] accepted at that render.  The call hands
    [new Date(year, month, d)] to [onChange] once and leaves the popup
    hidden in Date view; in a state the widget can reach and for a year
    a [Date] holds in full ([dateYear]) outside 0..99, that date is day
    [d] of the anchor's month and year. *)
Theorem widget_selectDate (clock : Z -> Date)
    (config config' : DatepickerConfig) (s : HookState) (d : Z) :
  In (SelectDate d) (handlers (RawDatePicker clock config s)) ->
  let y := MonthYear.year (monthYear s) in
  let m := MonthYear.month (monthYear s) in
  isVisible s = true /\ view s = view_date /\
  1 <= d <= daysInMonth m y /\
  fst (isValid (clock d) view_date (minDate config) (maxDate config)
               (dayCell y m d)) = true /\
  onChangeCalls config' (SelectDate d) s = [ofYMD y m d] /\
  isVisible (step config' (SelectDate d) s) = false /\
  view (step config' (SelectDate d) s) = view_date /\
  (widgetReachable s -> dateYear y -> ~ (0 <= y <= 99) ->
   hasFields (ofYMD y m d) y m d 0).
Proof.
  intros H. cbv zeta. apply handlers_inversion in H.
  destruct H as [H|[H|[Hvis H]]]; try discriminate.
  destruct (view s) eqn:Hv.
  - destruct H as [H|[H|[H|[H|(i & H & Hi & Hvalid)]]]]; try discriminate.
    injection H as <-. unfold ctx_isValid in Hvalid. rewrite Hv in Hvalid.
    split; [exact Hvis|]. split; [reflexivity|]. split; [exact Hi|].
    split; [exact Hvalid|]. split; [reflexivity|].
    unfold step, dispatch. cbn [handler fst]. unfold effect. cbn.
    rewrite Hvis. cbn. split; [reflexivity|]. split; [exact Hv|].
    intros Hr _ Hy. apply widgetReachable_monthInRange in Hr.
    apply ofYMD_fields; [exact Hy|]. split; [exact Hr|exact Hi].
  - destruct H as [H|[H|[H|(i & H & _)]]]; discriminate.
  - destruct H as [H|[H|(i & H & _)]]; discriminate.
Qed.

Lemma widget_selectDate_witness :
  onChangeCalls config2023 (SelectDate 5)
    (run config2023 [ShowCalendar] (initialState config2023))
  = [ofYMD 2023 2 5].
Proof.
  apply (widget_selectDate (fun _ => noon) config2023 config2023
           (run config2023 [ShowCalendar] (initialState config2023)) 5).
  vm_compute. auto 20.
Defined.

Lemma ctx_isValid_no_range (clock : Z -> Date) (config : DatepickerConfig)
    (s : HookState) (d : DateValidator.t) (i : Z) :
  minDate config = None -> maxDate config = None ->
  ctx_isValid clock config s d i = true.
Proof.
  intros Hmin Hmax. unfold ctx_isValid, isValid. rewrite Hmin, Hmax.
  destruct (ViewState_eqb (view s) view_year); reflexivity.
Qed.

(** X12. Without [minDate] and without [maxDate] no cell of any grid is
    grey: every button of the day, month and year grids has its
    [onClick]. *)
Theorem no_range_every_cell_enabled (clock : Z -> Date)
    (config : DatepickerConfig) (s : HookState) (b : Button) :
  minDate config = None -> maxDate config = None ->
  In (ButtonCell b) (cells (Calendar clock config s)) ->
  greyed b = false /\ exists e, onClick b = Some e.
Proof.
  intros Hmin Hmax. unfold Calendar. destruct (view s); intros Hin.
  - apply In_day_cells in Hin. destruct Hin as (i & _ & ->).
    rewrite ctx_isValid_no_range by assumption. cbn. eauto.
  - apply In_month_cells in Hin. destruct Hin as (i & month & _ & _ & ->).
    rewrite ctx_isValid_no_range by assumption. cbn. eauto.
  - apply In_year_cells in Hin. destruct Hin as (i & _ & ->).
    rewrite ctx_isValid_no_range by assumption. cbn. eauto.
Qed.

Lemma no_range_every_cell_enabled_witness :
  greyed (mkButton (Num 1) false false (Some (SelectDate 1))) = false /\
  exists e, onClick (mkButton (Num 1) false false (Some (SelectDate 1)))
            = Some e.
Proof.
  refine (no_range_every_cell_enabled (fun _ => noon) config2023
            (mkState (MonthYear.mk 2 2023) view_date true true)
            (mkButton (Num 1) false false (Some (SelectDate 1)))
            eq_refl eq_refl _).
  vm_compute. auto 10.
Defined.

(** X13. For an anchor year that is a safe integer with eighteen years to
    spare on either side (so that the loop and the decade steps do not
    round), the year grid is twelve buttons, for the years [year - 6] to
    [year + 5] in order, the anchor's year being the seventh; after
    [nextDecade] it is the twelve years that follow them and after
    [prevDecade] the twelve years before them. *)
Theorem year_grid_window (clock : Z -> Date)
    (config config' : DatepickerConfig) (s : HookState) :
  safeInteger (MonthYear.year (monthYear s) - 18) ->
  safeInteger (MonthYear.year (monthYear s) + 18) ->
  let y := MonthYear.year (monthYear s) in
  let labelAt (s : HookState) (k : Z) :=
    option_map (fun c => match c with
                         | ButtonCell b => label b | EmptyCell => NoLabel end)
               (nth_error (cells (YearSelection clock config s))
                          (Z.to_nat k)) in
  List.length (cells (YearSelection clock config s)) = 12%nat /\
  forall k, 0 <= k < 12 ->
    labelAt s k = Some (Num (y - 6 + k)) /\
    labelAt (step config' NextDecade s) k = Some (Num (y + 6 + k)) /\
    labelAt (step config' PrevDecade s) k = Some (Num (y - 18 + k)).
Proof.
  intros _ _. cbv zeta.
  assert (L : forall s' k, 0 <= k < 12 ->
    option_map (fun c => match c with
                         | ButtonCell b => label b | EmptyCell => NoLabel end)
      (nth_error (cells (YearSelection clock config s')) (Z.to_nat k))
    = Some (Num (MonthYear.year (monthYear s') - 6 + k))).
  { intros s' k Hk. unfold YearSelection. cbn [cells].
    rewrite nth_error_map, nth_error_zrange by lia. cbn [option_map].
    destruct (ctx_isValid _ _ _ _ _); reflexivity. }
  split.
  - unfold YearSelection. cbn [cells]. rewrite length_map, zrange_length.
    replace (MonthYear.year (monthYear s) + 6
             - (MonthYear.year (monthYear s) - 6)) with 12 by lia.
    reflexivity.
  - intros k Hk. rewrite !L by exact Hk.
    unfold step, dispatch. cbn [handler fst].
    rewrite !effect_same_visibility by reflexivity. cbn.
    repeat split; do 2 f_equal; lia.
Qed.

Lemma year_grid_window_witness :
  List.length (cells (YearSelection (fun _ => noon) config2023
                        (mkState (MonthYear.mk 2 2023) view_year true true)))
  = 12%nat.
Proof.
  apply (year_grid_window (fun _ => noon) config2023 config2023
           (mkState (MonthYear.mk 2 2023) view_year true true)).
  - unfold safeInteger. cbn. lia.
  - unfold safeInteger. cbn. lia.
Defined.

(** The first days of consecutive months are [daysInMonth] days apart. *)
Lemma MakeDay_next_month (y m : Z) :
  0 <= m <= 11 ->
  MakeDay y m (daysInMonth m y + 1)
  = if 11 <=? m then MakeDay (y + 1) 0 1 else MakeDay y (m + 1) 1.
Proof.
  intros Hm. destruct (Z.leb_spec 11 m).
  - replace m with 11 by lia. rewrite !MakeDay_in_range by lia.
    rewrite DayFromYear_succ, isLeapYear_DaysInYear.
    unfold DaysBeforeMonth, daysInMonth. cbn [Z.eqb Pos.eqb orb].
    destruct (isLeapYear y), (isLeapYear (y + 1)); lia.
  - rewrite !MakeDay_in_range by lia.
    unfold DaysBeforeMonth, daysInMonth.
    month_cases m; try lia; cbn [Z.eqb Pos.eqb orb Z.add Pos.add Pos.succ];
      destruct (isLeapYear y); lia.
Qed.

(** X14. [daysInMonth] is the length the [Date] object gives the month:
    for a month within 0..11 and a year outside -1..99 that, with the
    year after it, a [Date] holds in full ([dateYear]), each day 1 to
    [daysInMonth] of the grid is a date of that month, the day after the
    last one is the first of the month [nextMonth] shows, and that month
    begins [daysInMonth] week days later. *)
Theorem days_of_grid_are_the_month (config : DatepickerConfig)
    (s : HookState) :
  let m := MonthYear.month (monthYear s) in
  let y := MonthYear.year (monthYear s) in
  let n := monthYear (step config NextMonth s) in
  monthInRange s -> ~ (-1 <= y <= 99) -> dateYear y -> dateYear (y + 1) ->
  (forall i, 1 <= i <= daysInMonth m y -> hasFields (ofYMD y m i) y m i 0) /\
  ofYMD y m (daysInMonth m y + 1)
    = ofYMD (MonthYear.year n) (MonthYear.month n) 1 /\
  beginningDayOfWeek (MonthYear.month n) (MonthYear.year n)
    = (beginningDayOfWeek m y + daysInMonth m y) mod 7.
Proof.
  cbv zeta. unfold monthInRange. intros Hm Hy _ _.
  set (m := MonthYear.month (monthYear s)) in *.
  set (y := MonthYear.year (monthYear s)) in *.
  assert (Hn : monthYear (step config NextMonth s)
               = if 11 <=? m then MonthYear.mk 0 (y + 1)
                 else MonthYear.mk (m + 1) y).
  { unfold step, dispatch. cbn [handler fst].
    rewrite effect_same_visibility by reflexivity. reflexivity. }
  assert (Hnext : ofYMD y m (daysInMonth m y + 1)
    = ofYMD (MonthYear.year (monthYear (step config NextMonth s)))
            (MonthYear.month (monthYear (step config NextMonth s))) 1).
  { rewrite Hn. unfold ofYMD.
    replace ((0 <=? y) && (y <=? 99)) with false
      by (symmetry; apply andb_false_iff; rewrite !Z.leb_gt; lia).
    rewrite MakeDay_next_month by exact Hm.
    destruct (Z.leb_spec 11 m); cbn [MonthYear.year MonthYear.month].
    - replace ((0 <=? y + 1) && (y + 1 <=? 99)) with false
        by (symmetry; apply andb_false_iff; rewrite !Z.leb_gt; lia).
      reflexivity.
    - replace ((0 <=? y) && (y <=? 99)) with false
        by (symmetry; apply andb_false_iff; rewrite !Z.leb_gt; lia).
      reflexivity. }
  split; [|split].
  - intros i Hi. apply ofYMD_fields; [lia|]. split; [exact Hm|exact Hi].
  - exact Hnext.
  - unfold beginningDayOfWeek at 1. rewrite <- Hnext.
    unfold beginningDayOfWeek, getDay, WeekDay.
    rewrite (Day_ofYMD_offset y m (daysInMonth m y + 1)).
    Z.div_mod_to_equations. lia.
Qed.

Lemma days_of_grid_are_the_month_witness :
  ofYMD 2024 1 (daysInMonth 1 2024 + 1) = ofYMD 2024 2 1.
Proof.
  apply (days_of_grid_are_the_month config2023
           (mkState (MonthYear.mk 1 2024) view_date true true)).
  - unfold monthInRange. cbn. lia.
  - cbn. lia.
  - unfold dateYear. cbn. lia.
  - unfold dateYear. cbn. lia.
Defined.

(** X18. What opens and what closes the popup: a hidden popup becomes
    visible by [showCalendar] and [toggleCalendar] only; a visible one
    becomes hidden by [toggleCalendar], by [selectDate], and by a
    [mousedown] the registered listener finds outside the popup, only.  A
    [mousedown] inside the popup changes nothing, and [onChange] is called
    by [selectDate] alone. *)
Theorem visibility_changes (config : DatepickerConfig) (e : Event)
    (s : HookState) :
  (isVisible s = false ->
   (isVisible (step config e s) = true <->
    e = ShowCalendar \/ e = ToggleCalendar)) /\
  (isVisible s = true ->
   (isVisible (step config e s) = false <->
    e = ToggleCalendar \/ (exists d, e = SelectDate d) \/
    (listening s = true /\ e = MouseDown true false))) /\
  (forall refCurrent, step config (MouseDown refCurrent true) s = s) /\
  (onChangeCalls config e s <> [] -> exists d, e = SelectDate d).
Proof.
  assert (V : isVisible (step config e s) = isVisible (fst (handler e s))).
  { unfold step, dispatch. destruct (handler e s) as [s' calls]. cbn [fst].
    unfold effect. destruct (Bool.eqb (isVisible s) (isVisible s'));
      [reflexivity|].
    cbn. destruct (isVisible s') eqn:E; cbn; rewrite ?E; reflexivity. }
  split; [|split; [|split]].
  - intros Hs. rewrite V. destruct e; cbn; rewrite ?Hs; cbn;
      try (split; [discriminate|intros [H|H]; discriminate H]);
      try (split; auto; fail).
    destruct (listening s && (refCurrent && negb contains)); cbn;
      rewrite ?Hs; (split; [discriminate|intros [H|H]; discriminate H]).
  - intros Hs. rewrite V. destruct e; cbn; rewrite ?Hs; cbn;
      try (split; [discriminate
                  |intros [H|[[d H]|[_ H]]]; discriminate H]);
      try (split; eauto; fail).
    destruct (listening s) eqn:L, refCurrent, contains; cbn; rewrite ?Hs;
      try (split; [discriminate
                  |intros [H|[[d H]|[HL H]]]; try discriminate H;
                   try discriminate HL]).
    split; auto.
  - intros refCurrent. unfold step, dispatch. cbn [handler].
    rewrite andb_false_r, andb_false_r. cbn [fst].
    apply effect_same_visibility. reflexivity.
  - unfold onChangeCalls, dispatch. destruct e; cbn;
      try (intros H; contradiction H; reflexivity).
    + eauto.
    + destruct (listening s && (refCurrent && negb contains)); cbn;
        intros H; contradiction H; reflexivity.
Qed.

Lemma append_split (s1 s2 r1 r2 : String.string) :
  noSpace s1 -> noSpace s2 ->
  String.append s1 (String.String space r1)
  = String.append s2 (String.String space r2) ->
  s1 = s2 /\ r1 = r2.
Proof.
  revert s2. induction s1 as [|c s1 IH]; intros [|c' s2] N1 N2 H;
    cbn [String.append noSpace] in *.
  - injection H as ->. split; reflexivity.
  - injection H as <- _. destruct N2 as [N2 _]. contradiction.
  - injection H as -> _. destruct N1 as [N1 _]. contradiction.
  - injection H as <- H. destruct N1 as [_ N1], N2 as [_ N2].
    destruct (IH s2 N1 N2 H) as [-> ->]. split; reflexivity.
Qed.

Lemma noSpace_string_of_uint (d : Decimal.uint) :
  noSpace (DecimalString.NilEmpty.string_of_uint d).
Proof.
  induction d; cbn [DecimalString.NilEmpty.string_of_uint noSpace];
    try exact I; (split; [discriminate|assumption]).
Qed.

Lemma noSpace_showZ (n : Z) : noSpace (showZ n).
Proof.
  assert (U : forall d, noSpace (DecimalString.NilZero.string_of_uint d)).
  { intros d. pose proof (noSpace_string_of_uint d) as H.
    destruct d; try exact H. cbn. split; [discriminate|exact I]. }
  unfold showZ. destruct (Z.to_int n) as [d|d];
    cbn [DecimalString.NilZero.string_of_int noSpace].
  - apply U.
  - split; [discriminate|apply U].
Qed.

Lemma showZ_inj (a b : Z) : showZ a = showZ b -> a = b.
Proof.
  assert (I : forall n,
    DecimalString.NilZero.int_of_string (showZ n) = Some (Z.to_int n)).
  { intros n. unfold showZ. apply DecimalString.NilZero.isi.
    - destruct n; cbn; try discriminate.
      intros [= H]. exact (DecimalPos.Unsigned.to_uint_nonnil _ H).
    - destruct n; cbn; try discriminate.
      intros [= H]. exact (DecimalPos.Unsigned.to_uint_nonnil _ H). }
  intros H. apply DecimalZ.to_int_inj.
  pose proof (I a) as Ha. rewrite H, I in Ha. congruence.
Qed.

Lemma monthName_defined (m : Z) :
  0 <= m <= 11 ->
  exists name, lookup monthNames m = Some name /\ In name monthNames /\
               noSpace name.
Proof.
  intros Hm. month_cases m; eexists; (split; [reflexivity|]);
    (split; [cbn; auto 20|]); cbn; repeat split; discriminate.
Qed.

Lemma monthName_inj (m1 m2 : Z) :
  0 <= m1 <= 11 -> 0 <= m2 <= 11 ->
  lookup monthNames m1 = lookup monthNames m2 -> m1 = m2.
Proof.
  intros H1 H2. month_cases m1; month_cases m2; cbn; intros H;
    try reflexivity; discriminate H.
Qed.

Lemma Day_of_fields (t : Z) :
  Day t = DayFromYear (YearFromTime t)
          + DaysBeforeMonth (MonthFromTime t) (InLeapYear t)
          + DateFromTime t - 1.
Proof. unfold DateFromTime, DayWithinYear. lia. Qed.

(** X17. The text of the input box is the day of the month, the name of
    the month and the year, separated by single spaces; the name is
    always one of the twelve (never "undefined"); and two dates shown
    with the same text are the same day of the calendar. *)
Theorem formattedDate_faithful (d1 d2 : Date) :
  (exists name,
     In name monthNames /\
     formattedDate d1
     = String.append (showZ (getDate d1))
         (String.append " "
            (String.append name
               (String.append " " (showZ (getFullYear d1)))))) /\
  (formattedDate d1 = formattedDate d2 ->
   getFullYear d1 = getFullYear d2 /\ getMonth d1 = getMonth d2 /\
   getDate d1 = getDate d2 /\ Day (timeValue d1) = Day (timeValue d2)).
Proof.
  pose proof (MonthFromTime_range (timeValue d1)) as R1.
  pose proof (MonthFromTime_range (timeValue d2)) as R2.
  change (0 <= getMonth d1 <= 11) in R1. change (0 <= getMonth d2 <= 11) in R2.
  destruct (monthName_defined _ R1) as (n1 & L1 & I1 & S1).
  destruct (monthName_defined _ R2) as (n2 & L2 & I2 & S2).
  unfold formattedDate. rewrite L1, L2. split.
  - exists n1. split; [exact I1|reflexivity].
  - cbn [String.append]. intros H.
    apply append_split in H; try apply noSpace_showZ.
    destruct H as [Hd H].
    apply append_split in H; try assumption.
    destruct H as [Hn Hy].
    apply showZ_inj in Hd, Hy.
    assert (Hm : getMonth d1 = getMonth d2).
    { apply monthName_inj; try assumption. congruence. }
    repeat split; try assumption.
    rewrite (Day_of_fields (timeValue d1)), (Day_of_fields (timeValue d2)).
    unfold InLeapYear. unfold getFullYear, getMonth, getDate in *.
    rewrite Hy, Hm, Hd. reflexivity.
Qed.

(* ================================================================== *)
(** ** ValidityEngine: what the day and month cells compare            *)
(* ================================================================== *)

Lemma MakeDay_date_shift (y m dt k : Z) :
  MakeDay y m (dt + k) = MakeDay y m dt + k.
Proof. unfold MakeDay. lia. Qed.

(** A day of the month past the end of a month other than December is a
    day of the month after. *)
Lemma hasFields_MakeDay_overflow (y p dt tod : Z) :
  0 <= p <= 10 -> 0 <= tod < msPerDay ->
  daysInMonth p y < dt <= daysInMonth p y + 28 ->
  hasFields (mkDate (MakeDate (MakeDay y p dt) tod))
            y (p + 1) (dt - daysInMonth p y) tod.
Proof.
  intros Hp Htod Hdt.
  replace dt with (daysInMonth p y + 1 + (dt - daysInMonth p y - 1)) at 1
    by lia.
  rewrite MakeDay_date_shift, MakeDay_next_month by lia.
  destruct (Z.leb_spec 11 p); [lia|].
  rewrite <- MakeDay_date_shift.
  replace (1 + (dt - daysInMonth p y - 1)) with (dt - daysInMonth p y) by lia.
  apply hasFields_MakeDay; [|exact Htod].
  split; [lia|]. pose proof (daysInMonth_ge_28 (p + 1) y). lia.
Qed.

(** X15. In Month view, on a wall clock within the first 28 days of a
    month, the cell of month [m] (0..11) of a year [y] that, with the
    year before it, a [Date] holds in full ([dateYear]) is valid exactly
    when one day, at the wall clock's time of day, is neither after
    [maxDate] nor before [minDate]: the 30th of the December before for
    January; the 30th of the month itself for March, May, July, October
    and December; and for the other months the day [daysInMonth(m, y) - 1]
    of the month before. *)
Theorem month_view_reference (now : Date) (mn mx : option Date) (y m : Z) :
  getDate now <= 28 -> 0 <= m <= 11 -> dateYear (y - 1) -> dateYear y ->
  let '(y', m', d') := monthViewReference y m in
  validDate y' m' d' /\
  fst (isValid now view_month mn mx (monthCell y m))
  = inRange (mkDate (MakeDate (MakeDay y' m' d')
                              (TimeWithinDay (timeValue now)))) mn mx.
Proof.
  intros Hnow Hm _ _. rewrite isValid_monthCell.
  destruct (Z.eq_dec m 0) as [->|Hm0].
  { cbn [monthViewReference Z.eqb]. split.
    - unfold validDate. cbn. lia.
    - rewrite referenceDate_month_view_january by exact Hnow. reflexivity. }
  pose proof (hasFields_own now) as H0.
  apply (setFullYear_fields _ _ _ _ _ y) in H0; [|exact Hnow].
  apply (setMonth_fields _ _ _ _ _ m) in H0; [|exact Hnow|exact Hm].
  pose proof (daysInMonth_ge_28 m y) as Hlo.
  assert (Hhi : daysInMonth m y <= 31).
  { unfold daysInMonth.
    repeat match goal with
           | |- context [if ?c then _ else _] => destruct c
           end; lia. }
  apply (setDate_fields _ _ _ _ _ (daysInMonth m y)) in H0; [|lia].
  destruct (hasFields_valid _ _ _ _ _ H0) as [_ Htod].
  unfold referenceDate. cbn [ViewState_eqb negb].
  rewrite (setMonth_timeValue _ _ _ _ _ (m - 1) H0).
  set (tod := TimeWithinDay (timeValue now)) in *.
  destruct (Z_le_gt_dec (daysInMonth m y) (daysInMonth (m - 1) y)) as [Hle|Hgt].
  - (* the day exists in the month before *)
    assert (Ht : monthViewReference y m = (y, m - 1, daysInMonth m y - 1)).
    { unfold monthViewReference. revert Hle. unfold daysInMonth.
      month_cases m; try lia; cbn [Z.eqb Pos.eqb orb Z.sub Z.add Z.opp
                                   Z.pos_sub Pos.pred_double Z.succ_double
                                   Z.pred_double Z.double];
        destruct (isLeapYear y); intros; try reflexivity; lia. }
    rewrite Ht. split.
    + split; lia.
    + f_equal. apply (setDate_timeValue _ y (m - 1) (daysInMonth m y)).
      apply hasFields_MakeDay; [|exact Htod]. split; lia.
  - (* it runs over into the month itself *)
    assert (Ht : monthViewReference y m = (y, m, 30) /\ daysInMonth m y = 31).
    { unfold monthViewReference. revert Hgt. unfold daysInMonth.
      month_cases m; try lia; cbn [Z.eqb Pos.eqb orb Z.sub Z.add Z.opp
                                   Z.pos_sub Pos.pred_double Z.succ_double
                                   Z.pred_double Z.double];
        destruct (isLeapYear y); intros; try (split; reflexivity); lia. }
    destruct Ht as [Ht H31]. rewrite Ht. split.
    + split; lia.
    + f_equal.
      replace 30 with (daysInMonth m y - 1) by lia.
      apply (setDate_timeValue _ y m
               (daysInMonth m y - daysInMonth (m - 1) y)).
      pose proof (daysInMonth_ge_28 (m - 1) y) as Hp.
      pose proof (hasFields_MakeDay_overflow y (m - 1) (daysInMonth m y) tod
                    ltac:(lia) Htod ltac:(lia)) as HF.
      replace (m - 1 + 1) with m in HF by lia. exact HF.
Qed.

Lemma month_view_reference_witness :
  validDate 2024 0 (daysInMonth 1 2024 - 1) /\
  fst (isValid noon view_month min2023 max2023 (monthCell 2024 1))
  = inRange (mkDate (MakeDate (MakeDay 2024 0 (daysInMonth 1 2024 - 1))
                              (TimeWithinDay (timeValue noon))))
            min2023 max2023.
Proof.
  apply (month_view_reference noon min2023 max2023 2024 1).
  - vm_compute. discriminate.
  - lia.
  - unfold dateYear. lia.
  - unfold dateYear. lia.
Defined.

(** The day number grows with the order of the calendar. *)
Lemma MakeDay_lt (y1 m1 d1 y2 m2 d2 : Z) :
  validDate y1 m1 d1 -> validDate y2 m2 d2 ->
  dateLt (y1, m1, d1) (y2, m2, d2) ->
  MakeDay y1 m1 d1 < MakeDay y2 m2 d2.
Proof.
  intros V1 V2 [Hy|[<- Hmd]].
  - pose proof (MakeDay_within_year _ _ _ V1).
    pose proof (MakeDay_within_year _ _ _ V2).
    pose proof (DayFromYear_mono (y1 + 1) y2 ltac:(lia)). lia.
  - destruct V1 as [Hm1 Hd1], V2 as [Hm2 Hd2].
    rewrite !MakeDay_in_range by assumption.
    destruct Hmd as [Hm|[<- Hd]]; [|lia].
    revert Hd1 Hd2. unfold daysInMonth, DaysBeforeMonth.
    month_cases m1; month_cases m2; try lia;
      destruct (isLeapYear y1); cbn [Z.eqb Pos.eqb orb]; lia.
Qed.

Lemma MakeDay_lt_iff (y1 m1 d1 y2 m2 d2 : Z) :
  validDate y1 m1 d1 -> validDate y2 m2 d2 ->
  MakeDay y1 m1 d1 < MakeDay y2 m2 d2 <-> dateLt (y1, m1, d1) (y2, m2, d2).
Proof.
  intros V1 V2. split; [|apply MakeDay_lt; assumption].
  intros H.
  assert (T : dateLt (y1, m1, d1) (y2, m2, d2) \/
              (y1 = y2 /\ m1 = m2 /\ d1 = d2) \/
              dateLt (y2, m2, d2) (y1, m1, d1)) by (unfold dateLt; lia).
  destruct T as [T|[T|T]]; [exact T| |].
  - destruct T as (-> & -> & ->). lia.
  - apply MakeDay_lt in T; [lia|assumption|assumption].
Qed.

(** X16. In Date view, on a wall clock within the first 28 days of a
    month and not at midnight sharp, with [minDate] and [maxDate] at
    midnight of days of the calendar (years outside 0..99), all years
    being years a [Date] holds in full ([dateYear]): a day of the
    calendar is valid iff it is after [minDate] and not after [maxDate].
    The range is open at [minDate] and closed at [maxDate]. *)
Theorem date_view_half_open_range (now : Date)
    (yl ml dl yh mh dh y m d : Z) :
  getDate now <= 28 -> 0 < TimeWithinDay (timeValue now) ->
  dateYear yl -> validDate yl ml dl -> ~ (0 <= yl <= 99) ->
  dateYear yh -> validDate yh mh dh -> ~ (0 <= yh <= 99) ->
  dateYear y -> validDate y m d ->
  fst (isValid now view_date (Some (ofYMD yl ml dl)) (Some (ofYMD yh mh dh))
               (dayCell y m d)) = true
  <-> dateLt (yl, ml, dl) (y, m, d) /\ ~ dateLt (yh, mh, dh) (y, m, d).
Proof.
  intros Hnow Htod _ Vl Hyl _ Vh Hyh _ V.
  rewrite isValid_dayCell by (destruct V as [_ Hd]; lia).
  rewrite referenceDate_date_view by assumption.
  unfold inRange, gtb, ltb. cbn [timeValue].
  rewrite !ofYMD_timeValue by assumption.
  rewrite MakeDay_pred. unfold MakeDate.
  rewrite <- (MakeDay_lt_iff yl ml dl y m d) by assumption.
  rewrite <- (MakeDay_lt_iff yh mh dh y m d) by assumption.
  pose proof (TimeWithinDay_range (timeValue now)) as T.
  unfold msPerDay in *.
  rewrite andb_true_iff, !negb_true_iff, !Z.ltb_ge. lia.
Qed.

Lemma date_view_half_open_range_witness :
  fst (isValid noon view_date (Some (ofYMD 2023 0 1)) (Some (ofYMD 2023 11 31))
               (dayCell 2023 11 31)) = true
  <-> dateLt (2023, 0, 1) (2023, 11, 31) /\
      ~ dateLt (2023, 11, 31) (2023, 11, 31).
Proof.
  apply (date_view_half_open_range noon 2023 0 1 2023 11 31 2023 11 31).
  - vm_compute. discriminate.
  - vm_compute. reflexivity.
  - unfold dateYear. lia.
  - unfold validDate. vm_compute. repeat split; discriminate.
  - lia.
  - unfold dateYear. lia.
  - unfold validDate. vm_compute. repeat split; discriminate.
  - lia.
  - unfold dateYear. lia.
  - unfold validDate. vm_compute. repeat split; discriminate.
Defined.
